(** * Availability and shift coordination: a shallow embedding

    The client components of the scheduling application keep two
    collections in memory, shift assignments and availability records,
    and update them from three directions: user actions (optimistic
    apply, then commit or roll back), the change feed, and pure display
    helpers.  This file embeds those functions and proves or refutes the
    properties stated about them. *)

From Stdlib Require Import List Bool Lia ZArith QArith Qround.
From Stdlib Require Import Ascii String.
From Stdlib Require Import Sorting.Permutation Sorting.Sorted.
From Stdlib Require Import Numbers.DecimalString.
Import ListNotations.

Close Scope Q_scope.
Open Scope string_scope.
Open Scope list_scope.

(** ** JavaScript values and array/string primitives used by the code *)

Module JS.

(** [!s] on a value of type [string]: only the empty string is falsy. *)
Definition truthy (s : string) : bool := negb (s =? "").

(** Truthiness of a value of type [string | null | undefined]. *)
Definition truthy_opt (v : option string) : bool :=
  match v with
  | Some s => truthy s
  | None => false
  end.

(** [a || b] on possibly-undefined strings. *)
Definition or_else (a b : option string) : option string :=
  if truthy_opt a then a else b.

(** [s.includes(c)] for a one-character needle. *)
Fixpoint includes (c : ascii) (s : string) : bool :=
  match s with
  | EmptyString => false
  | String d rest => Ascii.eqb d c || includes c rest
  end.

(** [s.split(c)] for a one-character separator: the segments between
    the separators, so the empty string splits into one empty segment. *)
Fixpoint split (c : ascii) (s : string) : list string :=
  match s with
  | EmptyString => [EmptyString]
  | String d rest =>
      if Ascii.eqb d c then EmptyString :: split c rest
      else match split c rest with
           | hd :: tl => String d hd :: tl
           | [] => [String d EmptyString]
           end
  end.

(** [str[i]] for an integer index, coerced to a string by [+=]: out
    of range reads [undefined], which concatenates as the word itself. *)
Definition charAt (s : string) (i : Z) : string :=
  if (i <? 0)%Z then "undefined"
  else match String.get (Z.to_nat i) s with
       | Some c => String c EmptyString
       | None => "undefined"
       end.

(** [Math.floor(r * n)] for a draw [r] and an integer [n].  With [n]
    a power of two the floating-point product is exact, so the
    rational model loses nothing. *)
Definition floorMul (r : Q) (n : nat) : Z :=
  Qfloor (r * inject_Z (Z.of_nat n)).

(** [a.localeCompare(b)] on ISO dates (digits and hyphens at fixed
    positions), where collation order and code-unit order agree:
    negative, zero or positive. *)
Definition localeCompare (a b : string) : Z :=
  match String.compare a b with
  | Lt => (-1)%Z
  | Eq => 0%Z
  | Gt => 1%Z
  end.

(** [arr.sort(cmp)]: the language requires a stable sort, so for a
    consistent comparator the result is the stable insertion sort. *)
Fixpoint insert {A} (cmp : A -> A -> Z) (x : A) (l : list A) : list A :=
  match l with
  | [] => [x]
  | y :: l' => if (cmp x y <=? 0)%Z then x :: l else y :: insert cmp x l'
  end.

Definition sort {A} (cmp : A -> A -> Z) (arr : list A) : list A :=
  fold_right (insert cmp) [] arr.

(** Relational operators on strings compare code units
    lexicographically. *)
Definition ge (a b : string) : bool := String.leb b a.
Definition le (a b : string) : bool := String.leb a b.

(** [arr.some(p)], [arr.find(p)], [[...arr, x]]. *)
Definition some {A} (p : A -> bool) (arr : list A) : bool := existsb p arr.
Definition find {A} (p : A -> bool) (arr : list A) : option A := List.find p arr.
Definition push_back {A} (arr : list A) (x : A) : list A := arr ++ [x].

(** [parts.slice(0, n).join(sep)] *)
Definition joinFirst (n : nat) (sep : string) (parts : list string) : string :=
  String.concat sep (firstn n parts).

(** [arr.filter(item => item !== null)] on a list of nullable items. *)
Fixpoint nonNull {A : Type} (arr : list (option A)) : list A :=
  match arr with
  | [] => []
  | Some x :: rest => x :: nonNull rest
  | None :: rest => nonNull rest
  end.

(** [s.trim()]: white space and line terminators among the code units
    below 256 are tab, line feed, vertical tab, form feed, carriage
    return, space and no-break space. *)
Definition isWhiteSpace (c : ascii) : bool :=
  match N_of_ascii c with
  | 9%N | 10%N | 11%N | 12%N | 13%N | 32%N | 160%N => true
  | _ => false
  end.

Fixpoint trimStart (s : string) : string :=
  match s with
  | EmptyString => EmptyString
  | String c rest => if isWhiteSpace c then trimStart rest else s
  end.

Fixpoint trimEnd (s : string) : string :=
  match s with
  | EmptyString => EmptyString
  | String c rest =>
      match trimEnd rest with
      | EmptyString => if isWhiteSpace c then EmptyString else String c EmptyString
      | t => String c t
      end
  end.

Definition trim (s : string) : string := trimEnd (trimStart s).

(** [s.substring(n)] *)
Fixpoint substringFrom (n : nat) (s : string) : string :=
  match n, s with
  | O, _ => s
  | S n', String _ rest => substringFrom n' rest
  | S _, EmptyString => EmptyString
  end.

End JS.

(** ** Rows of the persisted tables (lib/supabase/types.ts) *)

Inductive ConfirmationStatus := pending | confirmed | declined.

Inductive Status := unavailable | available | preferred.

(** [AvailabilityStatus]: the three stored values or [null] (unset). *)
Definition AvailabilityStatus := option Status.

Module Shift.
Record t := mk {
  id : string;
  date : string;
  assigned_pa_id : string;
  assigned_by_id : string;
  call_time : option string;
  wrap_time : option string;
  confirmation_status : ConfirmationStatus;
  created_at : option string;
  updated_at : option string
}.

(** [{ ...shift, confirmation_status: c }] *)
Definition with_confirmation_status (s : t) (c : ConfirmationStatus) : t :=
  mk (id s) (date s) (assigned_pa_id s) (assigned_by_id s)
     (call_time s) (wrap_time s) c (created_at s) (updated_at s).
End Shift.

Module Availability.
Record t := mk {
  id : string;
  user_id : string;
  date : string;
  status : Status;
  pa_note : option string;
  created_at : option string;
  updated_at : option string
}.
End Availability.

(** ** Change-feed payloads

    The feed delivers a tagged union: an insert carries the new row, an
    update the new row and a partial old row, a delete a partial old row
    only (by default just the primary key). *)

Record OldRow := mkOld {
  old_id : option string;
  old_date : option string
}.

Inductive Payload (R : Type) :=
| INSERT (new : R)
| UPDATE (new : R) (old : OldRow)
| DELETE (old : OldRow).
Arguments INSERT {R} new.
Arguments UPDATE {R} new old.
Arguments DELETE {R} old.

(** [row.id !== payload.old.id] where the old id may be undefined: a
    string never equals [undefined]. *)
Definition differs_from_old (rid : string) (o : OldRow) : bool :=
  match old_id o with
  | Some i => negb (rid =? i)
  | None => true
  end.

(** ** The PA calendar (app/(dashboard)/pa/pa-calendar.tsx) *)

Module PACalendar.

Definition cycleStatus (current : AvailabilityStatus) : AvailabilityStatus :=
  match current with
  | None => Some unavailable
  | Some unavailable => Some available
  | Some available => Some preferred
  | Some preferred => None
  end.

(** [payload.new?.date || payload.old?.date] *)
Definition changedDate (p : Payload Availability.t) : option string :=
  match p with
  | INSERT new => JS.or_else (Some (Availability.date new)) None
  | UPDATE new old => JS.or_else (Some (Availability.date new)) (old_date old)
  | DELETE old => JS.or_else None (old_date old)
  end.

(** [changedDate && changedDate >= monthStartDate && changedDate <= monthEndDate] *)
Definition inMonthView (monthStartDate monthEndDate : string)
           (d : option string) : bool :=
  match d with
  | Some s => JS.truthy s && JS.ge s monthStartDate && JS.le s monthEndDate
  | None => false
  end.

(** The change-feed callback of the calendar, as a store transformer. *)
Definition onAvailabilityChange (monthStartDate monthEndDate : string)
           (p : Payload Availability.t)
           (prev : list Availability.t) : list Availability.t :=
  if inMonthView monthStartDate monthEndDate (changedDate p) then
    match p with
    | INSERT new => JS.push_back prev new
    | UPDATE new _ =>
        map (fun avail =>
               if Availability.id avail =? Availability.id new
               then new else avail) prev
    | DELETE old =>
        filter (fun avail => differs_from_old (Availability.id avail) old) prev
    end
  else prev.

Definition getAvailabilityForDate (day : string)
           (rows : list Availability.t) : option Availability.t :=
  JS.find (fun a => Availability.date a =? day) rows.

Definition getStatusLabel (status : AvailabilityStatus) : string :=
  match status with
  | Some preferred => "Preferred"
  | Some available => "Available"
  | Some unavailable => "Unavailable"
  | None => "Not Set"
  end.

(** [avail?.status || null], as read by the click handler and by the
    rendering of a day. *)
Definition statusOf (avail : option Availability.t) : AvailabilityStatus :=
  match avail with
  | Some a => Some (Availability.status a)
  | None => None
  end.

(** *** Month navigation

    A month on screen is a year and a month index from 0 to 11; [today]
    is the month of [new Date()]. *)

Record Month := mkMonth { year : Z; month : Z }.

Definition goToPreviousMonth (selected : Month) : Month :=
  if (month selected =? 0)%Z
  then mkMonth (year selected - 1) 11
  else mkMonth (year selected) (month selected - 1).

(** [selectedYear < maxYear || (selectedYear === maxYear &&
    selectedMonth < maxMonthIndex)] with [maxMonth = today.getMonth() + 3]. *)
Definition canGoNext (today selected : Month) : bool :=
  let maxMonth := (month today + 3)%Z in
  let maxYear := (year today + maxMonth / 12)%Z in
  let maxMonthIndex := Z.rem maxMonth 12 in
  (year selected <? maxYear)%Z
  || ((year selected =? maxYear)%Z && (month selected <? maxMonthIndex)%Z).

Definition goToNextMonth (today selected : Month) : Month :=
  if canGoNext today selected then
    if (month selected =? 11)%Z
    then mkMonth (year selected + 1) 0
    else mkMonth (year selected) (month selected + 1)
  else selected.

Definition canGoPrevious (today selected : Month) : bool :=
  (year today <? year selected)%Z
  || ((year selected =? year today)%Z && (month today <? month selected)%Z).

Definition goToCurrentMonth (today : Month) : Month := today.

(** The previous-month button is disabled unless [canGoPrevious]. *)
Definition clickPrevious (today selected : Month) : Month :=
  if canGoPrevious today selected then goToPreviousMonth selected else selected.

End PACalendar.

(** ** Environment of an asynchronous action

    A handler suspends at the persistence call and at the notification
    call; what the outside world answers there is an input of the
    model. *)

(** A thrown value: an [Error] object with its message, or anything else. *)
Inductive Thrown := ErrorObject (message : string) | OtherValue.

(** [error instanceof Error ? error.message : 'Unknown error'] *)
Definition errorMessage (e : Thrown) : string :=
  match e with
  | ErrorObject m => m
  | OtherValue => "Unknown error"
  end.

(** Answer of an insert or update followed by [.select().single()]:
    [{ data, error }], where a non-null [error] is thrown by the caller. *)
Inductive DbResponse := DbError (error : Thrown) | DbRow (data : Shift.t).

(** How the notification attempt ends: delivered, answered with a
    non-ok response (with the error text of its body, if any), or an
    exception on the way. *)
Inductive EmailOutcome :=
| EmailOk
| EmailNotOk (error : option string)
| EmailThrew (e : Thrown).

Record UserDetails := mkDetails { email : string; name : string }.

Record World := mkWorld {
  persistence : DbResponse;
  getUserDetails : string -> option UserDetails;
  emailSend : EmailOutcome;
  confirmDialog : bool;          (* answer to [confirm(...)] *)
  dateNow : N;                   (* [Date.now()] *)
  nowISO : string                (* [new Date().toISOString()] *)
}.

Inductive Toast := toast_success (msg : string) | toast_error (msg : string).

Inductive ConsoleLine := console_error (msg : string) | console_warn (msg : string).

(** What the notification block throws into its own [catch], if anything. *)
Definition emailFailure (e : EmailOutcome) : option Thrown :=
  match e with
  | EmailOk => None
  | EmailNotOk (Some msg) =>
      Some (ErrorObject (if JS.truthy msg then msg else "Failed to send email"))
  | EmailNotOk None => Some (ErrorObject "Failed to send email")
  | EmailThrew t => Some t
  end.

(** ** Clicking a day of the PA calendar ([handleDateClick]) *)

Module CalendarClick.


(** Answer of the write issued by a click: an error, or success (with
    the inserted row, which only the insert path reads). *)
Inductive WriteAnswer :=
| WriteError (error : Thrown)
| WriteOk (data : Availability.t).

(** Answer of the re-fetch made by the failure handler. *)
Inductive RefetchAnswer :=
| RefetchData (rows : list Availability.t)
| RefetchNothing
| RefetchThrew.

Record ClickWorld := mkClickWorld {
  write : WriteAnswer;
  refetch : RefetchAnswer;
  clickNow : N;               (* [Date.now()] *)
  clickRandom : string;       (* [Math.random()] as rendered in the template *)
  clickISO : string           (* [new Date().toISOString()] *)
}.

Record State := mkState {
  availability : list Availability.t;
  isLoading : bool
}.

Record Result := mkResult {
  state : State;
  toasts : list Toast
}.

Definition tempId (w : ClickWorld) : string :=
  ("temp-" ++ NilEmpty.string_of_uint (N.to_uint (clickNow w))
           ++ "-" ++ clickRandom w)%string.

(** The optimistic write of [handleDateClick]. *)
Definition optimisticClick (w : ClickWorld) (userId day : string)
           (prev : list Availability.t) : list Availability.t :=
  let currentAvail := PACalendar.getAvailabilityForDate day prev in
  match PACalendar.cycleStatus (PACalendar.statusOf currentAvail), currentAvail with
  | None, Some cur =>
      filter (fun a => negb (Availability.id a =? Availability.id cur)) prev
  | None, None => prev
  | Some newStatus, Some cur =>
      map (fun a =>
             if Availability.id a =? Availability.id cur
             then Availability.mk (Availability.id a) (Availability.user_id a)
                                  (Availability.date a) newStatus
                                  (Availability.pa_note a)
                                  (Availability.created_at a)
                                  (Some (clickISO w))
             else a) prev
  | Some newStatus, None =>
      JS.push_back prev
        (Availability.mk (tempId w) userId day newStatus None
                         (Some (clickISO w)) (Some (clickISO w)))
  end.

Definition handleDateClick (w : ClickWorld) (userId day : string)
           (st : State) : Result :=
  let currentAvail := PACalendar.getAvailabilityForDate day (availability st) in
  let newStatus := PACalendar.cycleStatus (PACalendar.statusOf currentAvail) in
  let applied := optimisticClick w userId day (availability st) in
  match write w with
  | WriteOk data =>
      let final :=
        match newStatus, currentAvail with
        | Some _, None =>
            filter (fun a => negb (Availability.id a =? tempId w)) applied ++ [data]
        | _, _ => applied
        end in
      mkResult (mkState final false)
               [toast_success ("Availability set to " ++ PACalendar.getStatusLabel newStatus)%string]
  | WriteError error =>
      match newStatus, currentAvail with
      | None, None =>
          (* nothing to delete: no request is made, so nothing fails *)
          mkResult (mkState applied false)
                   [toast_success ("Availability set to " ++ PACalendar.getStatusLabel newStatus)%string]
      | _, _ =>
          match refetch w with
          | RefetchData rows =>
              mkResult (mkState rows false)
                       [toast_error ("Failed to update availability: "
                                       ++ errorMessage error)%string]
          | RefetchNothing =>
              mkResult (mkState applied false)
                       [toast_error ("Failed to update availability: "
                                       ++ errorMessage error)%string]
          | RefetchThrew => mkResult (mkState applied false) []
          end
      end
  end.

(** *** Notes *)

Record NoteState := mkNoteState {
  rows : list Availability.t;
  selectedDate : option string;
  noteDialogOpen : bool;
  currentNote : string;
  noteLoading : bool
}.

Record NoteResult := mkNoteResult {
  noteState : NoteState;
  noteToasts : list Toast
}.

(** [currentAvail?.pa_note || ''] *)
Definition noteText (currentAvail : option Availability.t) : string :=
  match currentAvail with
  | Some a =>
      match Availability.pa_note a with
      | Some n => if JS.truthy n then n else ""
      | None => ""
      end
  | None => ""
  end.

Definition handleNoteClick (day : string) (st : NoteState) : NoteState :=
  let currentAvail := PACalendar.getAvailabilityForDate day (rows st) in
  mkNoteState (rows st) (Some day) true (noteText currentAvail) (noteLoading st).

(** [currentNote || null] *)
Definition noteOrNull (currentNote : string) : option string :=
  if JS.truthy currentNote then Some currentNote else None.

Definition saveNote (w : ClickWorld) (userId : string) (st : NoteState)
  : NoteResult :=
  match selectedDate st with
  | None => mkNoteResult st []
  | Some day =>
      if negb (JS.truthy day) then mkNoteResult st []
      else
        let currentAvail := PACalendar.getAvailabilityForDate day (rows st) in
        let applied :=
          match currentAvail with
          | Some cur =>
              map (fun a =>
                     if Availability.id a =? Availability.id cur
                     then Availability.mk (Availability.id a) (Availability.user_id a)
                                          (Availability.date a) (Availability.status a)
                                          (noteOrNull (currentNote st))
                                          (Availability.created_at a)
                                          (Some (clickISO w))
                     else a) (rows st)
          | None =>
              JS.push_back (rows st)
                (Availability.mk (tempId w) userId day available
                                 (noteOrNull (currentNote st))
                                 (Some (clickISO w)) (Some (clickISO w)))
          end in
        match write w with
        | WriteOk data =>
            let final :=
              match currentAvail with
              | Some _ => applied
              | None =>
                  filter (fun a => negb (Availability.id a =? tempId w)) applied
                    ++ [data]
              end in
            mkNoteResult (mkNoteState final None false "" false)
                         [toast_success "Note saved successfully!"]
        | WriteError error =>
            match refetch w with
            | RefetchData fetched =>
                mkNoteResult
                  (mkNoteState fetched (selectedDate st) (noteDialogOpen st)
                               (currentNote st) false)
                  [toast_error ("Failed to save note: " ++ errorMessage error)%string]
            | RefetchNothing =>
                mkNoteResult
                  (mkNoteState applied (selectedDate st) (noteDialogOpen st)
                               (currentNote st) false)
                  [toast_error ("Failed to save note: " ++ errorMessage error)%string]
            | RefetchThrew =>
                mkNoteResult
                  (mkNoteState applied (selectedDate st) (noteDialogOpen st)
                               (currentNote st) false)
                  []
            end
        end
  end.

End CalendarClick.

(** ** The PA shift list (app/(dashboard)/pa/pa-shifts.tsx)

    The repository holds a second copy of this component that differs
    in the channel name and in logging only; its callback and actions
    are the ones below. *)

Module PAShifts.

Definition formatTime (timeStr : option string) : string :=
  match timeStr with
  | None => "Not set"
  | Some s =>
      if negb (JS.truthy s) then "Not set"
      else match JS.split ":" s with
           | p0 :: p1 :: _ => (p0 ++ ":" ++ p1)%string
           | _ => s
           end
  end.

(** The change-feed callback on the [shifts] table. *)
Definition onShiftsChange (p : Payload Shift.t)
           (prev : list Shift.t) : list Shift.t :=
  match p with
  | INSERT new =>
      if negb (JS.truthy (Shift.id new)) then prev
      else if JS.some (fun s => Shift.id s =? Shift.id new) prev
      then map (fun shift =>
                  if Shift.id shift =? Shift.id new then new else shift) prev
      else JS.push_back prev new
  | UPDATE new _ =>
      if negb (JS.truthy (Shift.id new)) then prev
      else if negb (JS.some (fun shift => Shift.id shift =? Shift.id new) prev)
      then JS.push_back prev new
      else map (fun shift =>
                  if Shift.id shift =? Shift.id new then new else shift) prev
  | DELETE old =>
      if negb (JS.truthy_opt (old_id old)) then prev
      else filter (fun shift => differs_from_old (Shift.id shift) old) prev
  end.

Record State := mkState {
  shifts : list Shift.t;
  isLoading : option string
}.

Record Result := mkResult {
  state : State;
  toasts : list Toast;
  console : list ConsoleLine
}.

(** The notification block of [confirmShift] and [declineShift]: it
    has its own [try]/[catch] and contributes console lines only. *)
Definition notifyPC (w : World) (userId : string) (data : Shift.t)
           (failureLine : string) : list ConsoleLine :=
  if JS.truthy (Shift.assigned_by_id data) then
    let paDetails := getUserDetails w userId in
    let pcDetails := getUserDetails w (Shift.assigned_by_id data) in
    match pcDetails, paDetails with
    | Some pc, Some pa =>
        if JS.truthy (email pc) && JS.truthy (name pa) then
          match emailSend w with
          | EmailThrew t => [console_error failureLine]
          | _ => []
          end
        else [console_warn "Could not fetch required details for email notification"]
    | _, _ => [console_warn "Could not fetch required details for email notification"]
    end
  else [].

(** Common shape of [confirmShift] and [declineShift]: capture the
    previous record, apply optimistically, persist, notify, and on a
    persistence failure put the captured record back. *)
Definition transition (target : ConfirmationStatus)
           (okToast failToastPrefix dbLine catchLine emailLine : string)
           (w : World) (userId shiftId : string) (st : State) : Result :=
  let prev := shifts st in
  let previousShift := JS.find (fun s => Shift.id s =? shiftId) prev in
  let optimistic :=
    map (fun shift =>
           if Shift.id shift =? shiftId
           then Shift.with_confirmation_status shift target
           else shift) prev in
  match persistence w with
  | DbError error =>
      let rolledBack :=
        match previousShift with
        | Some previous =>
            map (fun shift =>
                   if Shift.id shift =? shiftId then previous else shift)
                optimistic
        | None => optimistic
        end in
      mkResult (mkState rolledBack None)
               [toast_error (failToastPrefix ++ errorMessage error)%string]
               [console_error dbLine; console_error catchLine]
  | DbRow data =>
      mkResult (mkState optimistic None)
               [toast_success okToast]
               (notifyPC w userId data emailLine)
  end.

Definition confirmShift : World -> string -> string -> State -> Result :=
  transition confirmed "Shift confirmed!" "Failed to confirm shift: "
             "PA: Error confirming shift:" "PA: Failed to confirm shift:"
             "Failed to send shift confirmation email:".

Definition declineShift (w : World) (userId shiftId : string)
           (st : State) : Result :=
  if negb (confirmDialog w) then mkResult st [] []
  else transition declined "Shift declined." "Failed to decline shift: "
                  "PA: Error declining shift:" "PA: Failed to decline shift:"
                  "Failed to send shift decline email:" w userId shiftId st.

(** [s.confirmation_status === 'pending'] *)
Definition isPending (s : Shift.t) : bool :=
  match Shift.confirmation_status s with
  | pending => true
  | _ => false
  end.

(** Comparator of [sortedShifts]: pending first, then by date. *)
Definition compareShifts (a b : Shift.t) : Z :=
  if isPending a && negb (isPending b) then (-1)%Z
  else if negb (isPending a) && isPending b then 1%Z
  else JS.localeCompare (Shift.date a) (Shift.date b).

Definition sortedShifts (shifts : list Shift.t) : list Shift.t :=
  JS.sort compareShifts shifts.

(** [pendingCount]: the number in the badge next to the title. *)
Definition pendingCount (shifts : list Shift.t) : nat :=
  List.length (filter isPending shifts).

End PAShifts.

(** Rows of [users] and the columns of the weekly grid. *)

Inductive Role := PA | PC.

Module User.
Record t := mk {
  id : string;
  email : string;
  name : string;
  role : Role;
  phone : option string;
  notes : option string;
  project_code : option string;
  production_id : option string;
  created_at : option string;
  updated_at : option string
}.
End User.

Module DateInfo.
Record t := mk {
  date : string;
  display : string
}.
End DateInfo.

(** ** The PC weekly grid (availability-grid component) *)

Module AvailabilityGrid.

Definition getStatusLabel (status : AvailabilityStatus) (hasShift : bool) : string :=
  if hasShift then "Assigned"
  else match status with
       | Some preferred => "Preferred"
       | Some available => "Available"
       | Some unavailable => "Unavailable"
       | None => "No data"
       end.

Definition formatTimeForDB (timeStr : option string) : option string :=
  match timeStr with
  | None => None
  | Some s =>
      if negb (JS.truthy s) then None
      else if JS.includes ":" s && (List.length (JS.split ":" s) =? 3)%nat
      then Some s
      else if JS.includes ":" s && (List.length (JS.split ":" s) =? 2)%nat
      then Some (s ++ ":00")%string
      else None
  end.

(** The change-feed callback on the [shifts] table. *)
Definition onShiftsChange (p : Payload Shift.t)
           (prev : list Shift.t) : list Shift.t :=
  match p with
  | INSERT new =>
      if JS.some (fun s => Shift.id s =? Shift.id new) prev
      then map (fun shift =>
                  if Shift.id shift =? Shift.id new then new else shift) prev
      else JS.push_back prev new
  | UPDATE new _ =>
      map (fun shift =>
             if Shift.id shift =? Shift.id new then new else shift) prev
  | DELETE old =>
      filter (fun shift => differs_from_old (Shift.id shift) old) prev
  end.

(** The change-feed callback on the [availability] table. *)
Definition onAvailabilityChange (p : Payload Availability.t)
           (prev : list Availability.t) : list Availability.t :=
  match p with
  | INSERT new => JS.push_back prev new
  | UPDATE new _ =>
      map (fun avail =>
             if Availability.id avail =? Availability.id new
             then new else avail) prev
  | DELETE old =>
      filter (fun avail => differs_from_old (Availability.id avail) old) prev
  end.

Record SelectedCell := mkCell {
  paId : string;
  paName : string;
  date : string;
  dateDisplay : string;
  status : AvailabilityStatus;
  shift : option Shift.t;
  paNote : option string
}.

Record State := mkState {
  selectedWeekMonday : string;
  shifts : list Shift.t;
  availability : list Availability.t;
  currentUserId : option string;
  selectedCell : option SelectedCell;
  isAssignDialogOpen : bool;
  isViewDialogOpen : bool;
  isEditMode : bool;
  isLoading : bool;
  callTime : string;
  wrapTime : string;
  location : string
}.

Record Result := mkResult {
  state : State;
  toasts : list Toast;
  console : list ConsoleLine
}.

Definition set_shifts (st : State) (l : list Shift.t) : State :=
  mkState (selectedWeekMonday st) l (availability st) (currentUserId st)
          (selectedCell st) (isAssignDialogOpen st) (isViewDialogOpen st)
          (isEditMode st) false (callTime st) (wrapTime st) (location st).

(** State after a successful assignment: new collection, dialog
    closed, selection and form cleared. *)
Definition after_assign (st : State) (l : list Shift.t) : State :=
  mkState (selectedWeekMonday st) l (availability st) (currentUserId st)
          None false (isViewDialogOpen st) (isEditMode st) false "" "" "".

(** State after a successful removal. *)
Definition after_remove (st : State) (l : list Shift.t) : State :=
  mkState (selectedWeekMonday st) l (availability st) (currentUserId st)
          None (isAssignDialogOpen st) false false false "" "" "".

Definition tempId (w : World) : string :=
  ("temp-" ++ NilEmpty.string_of_uint (N.to_uint (dateNow w)))%string.

(** The notification block of [createShift]: its own [try]/[catch],
    console lines only. *)
Definition notifyPA (w : World) (cell : SelectedCell) : list ConsoleLine :=
  match getUserDetails w (paId cell) with
  | Some pa =>
      if JS.truthy (email pa) then
        match emailFailure (emailSend w) with
        | Some _ => [console_error "Failed to send shift assignment email:"]
        | None => []
        end
      else [console_warn "Could not fetch PA email address for notification"]
  | None => [console_warn "Could not fetch PA email address for notification"]
  end.

Definition createShift (w : World) (st : State) : Result :=
  match currentUserId st, selectedCell st with
  | Some uid, Some cell =>
      if negb (JS.truthy uid)
      then mkResult st [toast_error "Unable to assign shift. Please try again."] []
      else
        let formattedCallTime := formatTimeForDB (Some (callTime st)) in
        let formattedWrapTime := formatTimeForDB (Some (wrapTime st)) in
        let optimisticShift :=
          Shift.mk (tempId w) (date cell) (paId cell) uid
                   formattedCallTime formattedWrapTime pending
                   (Some (nowISO w)) (Some (nowISO w)) in
        let applied := JS.push_back (shifts st) optimisticShift in
        match persistence w with
        | DbError error =>
            mkResult
              (set_shifts st
                 (filter (fun s => negb (Shift.id s =? Shift.id optimisticShift))
                         applied))
              [toast_error ("Failed to assign shift: " ++ errorMessage error)%string]
              [console_error "Error creating shift:";
               console_error "Failed to create shift:"]
        | DbRow data =>
            mkResult
              (after_assign st
                 (filter (fun s => negb (Shift.id s =? Shift.id optimisticShift))
                         applied ++ [data]))
              [toast_success "Shift assigned successfully!"]
              (notifyPA w cell)
        end
  | _, _ => mkResult st [toast_error "Unable to assign shift. Please try again."] []
  end.

(** A delete answers with [{ error }] only: of the persistence
    answer just the presence of an error is read. *)
Definition deleteShift (w : World) (st : State) : Result :=
  match selectedCell st with
  | Some cell =>
      match shift cell with
      | Some shiftToDelete =>
          if negb (confirmDialog w) then mkResult st [] []
          else
            let applied :=
              filter (fun shift => negb (Shift.id shift =? Shift.id shiftToDelete))
                     (shifts st) in
            match persistence w with
            | DbError error =>
                mkResult (set_shifts st (JS.push_back applied shiftToDelete))
                         [toast_error ("Failed to remove assignment: "
                                         ++ errorMessage error)%string]
                         []
            | DbRow _ =>
                mkResult (after_remove st applied)
                         [toast_success "Assignment removed successfully!"]
                         []
            end
      | None => mkResult st [toast_error "No shift selected to remove."] []
      end
  | None => mkResult st [toast_error "No shift selected to remove."] []
  end.

Definition getAvailabilityStatus (pa day : string)
           (rows : list Availability.t) : AvailabilityStatus :=
  match JS.find (fun a => (Availability.user_id a =? pa)
                          && (Availability.date a =? day)) rows with
  | Some avail => Some (Availability.status avail)
  | None => None
  end.

Definition getShiftForCell (pa day : string)
           (rows : list Shift.t) : option Shift.t :=
  JS.find (fun s => (Shift.assigned_pa_id s =? pa) && (Shift.date s =? day)) rows.

(** [t ? t.split(':').slice(0, 2).join(':') : ''], the value given to a
    time input. *)
Definition timeInputValue (t : option string) : string :=
  match t with
  | Some s => if JS.truthy s then JS.joinFirst 2 ":" (JS.split ":" s) else ""
  | None => ""
  end.

(** [availRecord?.pa_note || null] *)
Definition noteOf (availRecord : option Availability.t) : option string :=
  match availRecord with
  | Some a => if JS.truthy_opt (Availability.pa_note a)
              then Availability.pa_note a else None
  | None => None
  end.

Definition handleCellClick (pa : User.t) (dateInfo : DateInfo.t)
           (st : State) : State :=
  let cellStatus :=
    getAvailabilityStatus (User.id pa) (DateInfo.date dateInfo) (availability st) in
  let cellShift :=
    getShiftForCell (User.id pa) (DateInfo.date dateInfo) (shifts st) in
  let availRecord :=
    JS.find (fun a => (Availability.user_id a =? User.id pa)
                      && (Availability.date a =? DateInfo.date dateInfo))
            (availability st) in
  let cellData :=
    mkCell (User.id pa) (User.name pa) (DateInfo.date dateInfo)
           (DateInfo.display dateInfo) cellStatus cellShift (noteOf availRecord) in
  match cellShift with
  | Some s =>
      mkState (selectedWeekMonday st) (shifts st) (availability st)
              (currentUserId st) (Some cellData) (isAssignDialogOpen st)
              true false (isLoading st)
              (timeInputValue (Shift.call_time s))
              (timeInputValue (Shift.wrap_time s)) ""
  | None =>
      match cellStatus with
      | Some available | Some preferred =>
          mkState (selectedWeekMonday st) (shifts st) (availability st)
                  (currentUserId st) (Some cellData) true
                  (isViewDialogOpen st) (isEditMode st) (isLoading st) "" "" ""
      | _ =>
          mkState (selectedWeekMonday st) (shifts st) (availability st)
                  (currentUserId st) (Some cellData) (isAssignDialogOpen st)
                  (isViewDialogOpen st) (isEditMode st) (isLoading st)
                  (callTime st) (wrapTime st) (location st)
      end
  end.

(** [hasShift || status === 'available' || status === 'preferred'] *)
Definition isClickable (pa : User.t) (dateInfo : DateInfo.t) (st : State) : bool :=
  match getShiftForCell (User.id pa) (DateInfo.date dateInfo) (shifts st) with
  | Some _ => true
  | None =>
      match getAvailabilityStatus (User.id pa) (DateInfo.date dateInfo)
                                  (availability st) with
      | Some available | Some preferred => true
      | _ => false
      end
  end.

(** The [onClick] of a grid cell. *)
Definition onCellClick (pa : User.t) (dateInfo : DateInfo.t) (st : State) : State :=
  if isClickable pa dateInfo st then handleCellClick pa dateInfo st else st.

(** The two writes of [createShift] to the collection, each an updater
    applied to the collection current at that moment: the optimistic
    append and, once the row has come back, the replacement. *)
Definition createShiftApply (w : World) (uid : string) (cell : SelectedCell)
           (st : State) (current : list Shift.t) : list Shift.t :=
  JS.push_back current
    (Shift.mk (tempId w) (date cell) (paId cell) uid
              (formatTimeForDB (Some (callTime st)))
              (formatTimeForDB (Some (wrapTime st))) pending
              (Some (nowISO w)) (Some (nowISO w))).

Definition createShiftCommit (w : World) (data : Shift.t)
           (current : list Shift.t) : list Shift.t :=
  filter (fun s => negb (Shift.id s =? tempId w)) current ++ [data].

(** State after a successful time edit. *)
Definition after_update (st : State) (l : list Shift.t) : State :=
  mkState (selectedWeekMonday st) l (availability st) (currentUserId st)
          None (isAssignDialogOpen st) false false false "" "" "".

Definition updateShift (w : World) (st : State) : Result :=
  match selectedCell st with
  | Some cell =>
      match shift cell with
      | Some originalShift =>
          let optimisticUpdate :=
            Shift.mk (Shift.id originalShift) (Shift.date originalShift)
                     (Shift.assigned_pa_id originalShift)
                     (Shift.assigned_by_id originalShift)
                     (formatTimeForDB (Some (callTime st)))
                     (formatTimeForDB (Some (wrapTime st)))
                     (Shift.confirmation_status originalShift)
                     (Shift.created_at originalShift)
                     (Some (nowISO w)) in
          let applied :=
            map (fun s => if Shift.id s =? Shift.id originalShift
                          then optimisticUpdate else s) (shifts st) in
          match persistence w with
          | DbError error =>
              mkResult
                (set_shifts st
                   (map (fun s => if Shift.id s =? Shift.id originalShift
                                  then originalShift else s) applied))
                [toast_error ("Failed to update shift: " ++ errorMessage error)%string]
                [console_error "Error updating shift:";
                 console_error "Failed to update shift:"]
          | DbRow data =>
              mkResult
                (after_update st
                   (map (fun s => if Shift.id s =? Shift.id originalShift
                                  then data else s) applied))
                [toast_success "Shift updated successfully!"]
                []
          end
      | None => mkResult st [toast_error "No shift selected to update."] []
      end
  | None => mkResult st [toast_error "No shift selected to update."] []
  end.

Definition filteredPAs (pas : list User.t) (dates : list DateInfo.t)
           (rows : list Availability.t)
           (showOnlyAvailable showOnlyPreferred : bool) : list User.t :=
  filter
    (fun pa =>
       if showOnlyAvailable || showOnlyPreferred then
         JS.some
           (fun dateInfo =>
              let cellStatus :=
                getAvailabilityStatus (User.id pa) (DateInfo.date dateInfo) rows in
              if showOnlyPreferred then
                match cellStatus with Some preferred => true | _ => false end
              else if showOnlyAvailable then
                match cellStatus with
                | Some available | Some preferred => true
                | _ => false
                end
              else false)
           dates
       else true)
    pas.

(** [setShifts(updater)]: the collection becomes [updater] of the
    current one; no other part of the component state changes. *)
Definition setShifts (updater : list Shift.t -> list Shift.t) (st : State) : State :=
  mkState (selectedWeekMonday st) (updater (shifts st)) (availability st)
          (currentUserId st) (selectedCell st) (isAssignDialogOpen st)
          (isViewDialogOpen st) (isEditMode st) (isLoading st)
          (callTime st) (wrapTime st) (location st).

End AvailabilityGrid.

(** ** The PC daily overview (daily-overview-client.tsx) *)

Module DailyOverview.

Definition onShiftsChange (p : Payload Shift.t)
           (prev : list Shift.t) : list Shift.t :=
  match p with
  | INSERT new =>
      if JS.some (fun s => Shift.id s =? Shift.id new) prev
      then map (fun shift =>
                  if Shift.id shift =? Shift.id new then new else shift) prev
      else JS.push_back prev new
  | UPDATE new _ =>
      map (fun shift =>
             if Shift.id shift =? Shift.id new then new else shift) prev
  | DELETE old =>
      filter (fun shift => differs_from_old (Shift.id shift) old) prev
  end.

Inductive FilterType := FilterAll | FilterConfirmed | FilterPending.

Definition shiftsForDate (shifts : list Shift.t) (selectedDate : string)
  : list Shift.t :=
  filter (fun shift => Shift.date shift =? selectedDate) shifts.

Definition shiftsWithPAs (pas : list User.t) (dayShifts : list Shift.t)
  : list (Shift.t * User.t) :=
  JS.nonNull
    (map (fun shift =>
            match JS.find (fun p => User.id p =? Shift.assigned_pa_id shift) pas with
            | Some pa => Some (shift, pa)
            | None => None
            end) dayShifts).

Definition hasStatus (c : ConfirmationStatus) (s : Shift.t) : bool :=
  match Shift.confirmation_status s, c with
  | pending, pending | confirmed, confirmed | declined, declined => true
  | _, _ => false
  end.

Definition filteredShifts (filter_ : FilterType)
           (rows : list (Shift.t * User.t)) : list (Shift.t * User.t) :=
  match filter_ with
  | FilterAll => rows
  | FilterConfirmed => filter (fun item => hasStatus confirmed (fst item)) rows
  | FilterPending => filter (fun item => hasStatus pending (fst item)) rows
  end.

Record Summary := mkSummary {
  total : nat;
  confirmedCount : nat;
  pendingCount : nat;
  declinedCount : nat
}.

Definition summary (dayShifts : list Shift.t) : Summary :=
  mkSummary (List.length dayShifts)
            (List.length (filter (hasStatus confirmed) dayShifts))
            (List.length (filter (hasStatus pending) dayShifts))
            (List.length (filter (hasStatus declined) dayShifts)).

(** [callTimeFormatted] of [handleUpdateShift]:
    [t ? (t.includes(':') && t.split(':').length === 2 ? `${t}:00` : t) : null] *)
Definition timeFormatted (t : string) : option string :=
  if JS.truthy t then
    if JS.includes ":" t && (List.length (JS.split ":" t) =? 2)%nat
    then Some (t ++ ":00")%string
    else Some t
  else None.

End DailyOverview.

(** ** Route protection (the middleware) *)

Module Middleware.

Inductive Decision := redirect (path : string) | next.

(** What the middleware learns about the caller: the authenticated
    user's id (or none), whether the identity call reported an error,
    and the role stored for an id in [users]. *)
Record Session := mkSession {
  authUser : option string;
  authError : bool;
  roleOf : string -> option Role
}.

Definition userRole (s : Session) : option Role :=
  match authUser s with
  | Some uid => if negb (authError s) then roleOf s uid else None
  | None => None
  end.

(** [!!authUser && !!userRole] *)
Definition isAuthenticated (s : Session) : bool :=
  match authUser s, userRole s with
  | Some _, Some _ => true
  | _, _ => false
  end.

Definition dashboardPath (s : Session) : string :=
  match userRole s with
  | Some PA => "/pa"
  | _ => "/pc"
  end.

Definition middleware (s : Session) (pathname : string) : Decision :=
  let isPublicRoute := (pathname =? "/login") || (pathname =? "/register") in
  let isPARoute := String.prefix "/pa" pathname in
  let isPCRoute := String.prefix "/pc" pathname in
  let isRoot := pathname =? "/" in
  if isRoot then
    if isAuthenticated s then redirect (dashboardPath s) else redirect "/login"
  else if isPublicRoute then
    if isAuthenticated s then redirect (dashboardPath s) else next
  else if isPARoute then
    if negb (isAuthenticated s) then redirect "/login"
    else match userRole s with
         | Some PA => next
         | _ => redirect "/pc"
         end
  else if isPCRoute then
    if negb (isAuthenticated s) then redirect "/login"
    else match userRole s with
         | Some PC => next
         | _ => redirect "/pa"
         end
  else next.

End Middleware.

(** ** The email route (app/api/send-email/route.ts) *)

Module SendEmail.

(** The parsed request body; a field that is absent reads [undefined]. *)
Record Body := mkBody {
  paEmail : option string;
  paName : option string;
  date : option string;
  callTime : option string;
  wrapTime : option string;
  pcName : option string
}.

(** Answer of the mail provider's [emails.send]. *)
Inductive SendAnswer :=
| SendOk (messageId : option string)
| SendError
| SendThrew.

Inductive Reply :=
| reply_success (messageId : option string)
| reply_error (error : string).

Record Response := mkResponse {
  status : nat;
  reply : Reply
}.

(** [body] is [None] when [request.json()] throws. *)
Definition POST (body : option Body) (RESEND_API_KEY : option string)
           (send : SendAnswer) : Response :=
  match body with
  | None => mkResponse 500 (reply_error "Internal server error")
  | Some b =>
      if negb (JS.truthy_opt (paEmail b)) || negb (JS.truthy_opt (paName b))
         || negb (JS.truthy_opt (date b))
      then mkResponse 400
             (reply_error "Missing required fields: paEmail, paName, date")
      else if negb (JS.truthy_opt RESEND_API_KEY)
      then mkResponse 500 (reply_error "Email service not configured")
      else match send with
           | SendError => mkResponse 500 (reply_error "Failed to send email")
           | SendThrew => mkResponse 500 (reply_error "Internal server error")
           | SendOk messageId => mkResponse 200 (reply_success messageId)
           end
  end.

(** How [createShift] reads the response: [response.ok] is a status
    from 200 to 299; otherwise the [error] text of the body is thrown. *)
Definition asEmailOutcome (r : Response) : EmailOutcome :=
  if (200 <=? status r)%nat && (status r <=? 299)%nat then EmailOk
  else match reply r with
       | reply_error e => EmailNotOk (Some e)
       | reply_success _ => EmailNotOk None
       end.

End SendEmail.

(** ** Plain text to HTML ([convertToHTML], in lib/email/notifications.ts
    and again in the email route) *)

Module EmailHtml.

Definition newline : ascii := "010".

(** One turn of the loop over the lines, on the pair of the text
    built so far and the [inList] flag. *)
Definition step (acc : string * bool) (raw : string) : string * bool :=
  let html := fst acc in
  let inList := snd acc in
  let line := JS.trim raw in
  if String.prefix "- " line then
    let html1 := if negb inList then (html ++ "<ul>")%string else html in
    ((html1 ++ "<li>" ++ JS.substringFrom 2 line ++ "</li>")%string, true)
  else
    let html1 := if inList then (html ++ "</ul>")%string else html in
    if line =? "" then ((html1 ++ "<br>")%string, false)
    else ((html1 ++ "<p>" ++ line ++ "</p>")%string, false).

Definition convertToHTML (text : string) : string :=
  let final := fold_left step (JS.split newline text) (EmptyString, false) in
  if snd final then (fst final ++ "</ul>")%string else fst final.

(** The same output seen as a sequence of elements. *)
Inductive Piece :=
| ul_open
| ul_close
| li (content : string)
| br
| par (content : string).

Definition render (x : Piece) : string :=
  match x with
  | ul_open => "<ul>"
  | ul_close => "</ul>"
  | li content => ("<li>" ++ content ++ "</li>")%string
  | br => "<br>"
  | par content => ("<p>" ++ content ++ "</p>")%string
  end.

Definition flatten (parts : list string) : string :=
  fold_right String.append EmptyString parts.

Fixpoint pieces (inList : bool) (lines : list string) : list Piece :=
  match lines with
  | [] => if inList then [ul_close] else []
  | raw :: rest =>
      let line := JS.trim raw in
      if String.prefix "- " line then
        (if negb inList then [ul_open] else [])
          ++ li (JS.substringFrom 2 line) :: pieces true rest
      else
        (if inList then [ul_close] else [])
          ++ (if line =? "" then br else par line) :: pieces false rest
  end.

(** Lists are opened outside a list and start with an item, items
    stand inside a list, everything else outside, and nothing is left
    open at the end. *)
Fixpoint wellNested (inList : bool) (ps : list Piece) : bool :=
  match ps with
  | [] => negb inList
  | ul_open :: rest =>
      negb inList
      && match rest with li _ :: _ => true | _ => false end
      && wellNested true rest
  | ul_close :: rest => inList && wellNested false rest
  | li _ :: rest => inList && wellNested true rest
  | br :: rest => negb inList && wellNested false rest
  | par _ :: rest => negb inList && wellNested false rest
  end.

Definition isItem (x : Piece) : bool :=
  match x with li _ => true | _ => false end.

Definition isBlock (x : Piece) : bool :=
  match x with br | par _ => true | _ => false end.

Definition isListLine (raw : string) : bool :=
  String.prefix "- " (JS.trim raw).

End EmailHtml.

(** ** Invite codes (lib/utils/inviteCode.ts) *)

Module InviteCode.

Definition chars : string := "ABCDEFGHJKLMNPQRSTUVWXYZ23456789".

(** The loop [for (i = 0; i < 6; i++)], with [todo] iterations left;
    [random i] is the value of the i-th call of [Math.random()]. *)
Fixpoint loop (random : nat -> Q) (i todo : nat) (code : string) : string :=
  match todo with
  | O => code
  | S todo' =>
      let code1 :=
        (code ++ JS.charAt chars (JS.floorMul (random i) (String.length chars)))%string in
      let code2 := if (i =? 2)%nat then (code1 ++ "-")%string else code1 in
      loop random (S i) todo' code2
  end.

Definition generateInviteCode (random : nat -> Q) : string :=
  loop random 0 6 "".

End InviteCode.

(** ** Time-of-day strings of the form HH:MM *)

Definition isDigit (c : ascii) : bool :=
  (48 <=? N_of_ascii c)%N && (N_of_ascii c <=? 57)%N.

Definition isHHMM (t : string) : bool :=
  match t with
  | String h1 (String h2 (String sep (String m1 (String m2 EmptyString)))) =>
      isDigit h1 && isDigit h2 && Ascii.eqb sep ":" && isDigit m1 && isDigit m2
  | _ => false
  end.

(** ** Counting the records that carry an identifier *)

Definition countShiftId (i : string) (l : list Shift.t) : nat :=
  List.length (filter (fun s => Shift.id s =? i) l).

Definition countAvailabilityId (i : string) (l : list Availability.t) : nat :=
  List.length (filter (fun a => Availability.id a =? i) l).

(** The function mapped over the store by the replace branches. *)
Definition replaceShift (new shift : Shift.t) : Shift.t :=
  if Shift.id shift =? Shift.id new then new else shift.

(** ** Order induced by a comparator: [cmp x y <= 0] *)

Definition notAfter {A : Type} (cmp : A -> A -> Z) (x y : A) : Prop :=
  (cmp x y <=? 0)%Z = true.

(** ** Dates of a collection against the month on screen *)

Definition inMonth (monthStartDate monthEndDate : string)
           (a : Availability.t) : bool :=
  JS.ge (Availability.date a) monthStartDate
  && JS.le (Availability.date a) monthEndDate.

(** ** The cell a shift occupies in the weekly grid *)

Definition cellKey (s : Shift.t) : string * string :=
  (Shift.assigned_pa_id s, Shift.date s).

(** ** Months counted from year 0, and well-formed months *)

Definition monthNumber (m : PACalendar.Month) : Z :=
  (12 * PACalendar.year m + PACalendar.month m)%Z.

Definition validMonth (m : PACalendar.Month) : Prop :=
  (0 <= PACalendar.month m <= 11)%Z.

(** * Properties *)

(** ** Status model *)

(** C5: [cycleStatus] is defined on each of the four availability
    states (unset being [null]), follows the ring unset -> unavailable
    -> available -> preferred -> unset, and four applications bring any
    state back to itself. *)
Theorem cycleStatus_four_cycle :
  PACalendar.cycleStatus None = Some unavailable /\
  PACalendar.cycleStatus (Some unavailable) = Some available /\
  PACalendar.cycleStatus (Some available) = Some preferred /\
  PACalendar.cycleStatus (Some preferred) = None /\
  forall s : AvailabilityStatus,
    PACalendar.cycleStatus
      (PACalendar.cycleStatus
         (PACalendar.cycleStatus (PACalendar.cycleStatus s))) = s.
Proof.
  repeat split.
  intros [[ | | ] | ]; reflexivity.
Qed.

(** C6: a cell with an assigned shift is labelled "Assigned" whatever
    its availability status, null included; for an unavailable day the
    label is therefore not "Unavailable". *)
Theorem getStatusLabel_assigned :
  (forall s : AvailabilityStatus,
      AvailabilityGrid.getStatusLabel s true = "Assigned") /\
  AvailabilityGrid.getStatusLabel (Some unavailable) true <> "Unavailable".
Proof.
  split.
  - intros s. reflexivity.
  - discriminate.
Qed.

(** ** Time format *)

Lemma split_without_separator (c : ascii) (s : string) :
  JS.includes c s = false -> JS.split c s = [s].
Proof.
  induction s as [ | d rest IH]; simpl; intros H.
  - reflexivity.
  - apply orb_false_iff in H as [Hd Hrest].
    rewrite Hd, (IH Hrest). reflexivity.
Qed.

Lemma split_at_separator (c : ascii) (h rest : string) :
  JS.includes c h = false ->
  JS.split c (h ++ String c rest)%string = h :: JS.split c rest.
Proof.
  induction h as [ | d h IH]; simpl; intros H.
  - rewrite Ascii.eqb_refl. reflexivity.
  - apply orb_false_iff in H as [Hd Hh].
    rewrite Hd, (IH Hh). reflexivity.
Qed.

Lemma includes_append (c : ascii) (a b : string) :
  JS.includes c (a ++ b)%string = JS.includes c a || JS.includes c b.
Proof.
  induction a as [ | d a IH]; simpl.
  - reflexivity.
  - rewrite IH. apply orb_assoc.
Qed.

Lemma append_assoc (a b c : string) :
  ((a ++ b) ++ c = a ++ (b ++ c))%string.
Proof.
  induction a as [ | d a IH]; simpl; [reflexivity | now rewrite IH].
Qed.

(** Any hour part and minute part free of colons behave like HH and MM. *)
Lemma time_round_trip_parts (h m : string) :
  JS.includes ":" h = false ->
  JS.includes ":" m = false ->
  AvailabilityGrid.formatTimeForDB (Some (h ++ ":" ++ m)%string)
    = Some ((h ++ ":" ++ m) ++ ":00")%string /\
  PAShifts.formatTime
    (AvailabilityGrid.formatTimeForDB (Some (h ++ ":" ++ m)%string))
    = (h ++ ":" ++ m)%string.
Proof.
  intros Hh Hm.
  assert (Hsplit : JS.split ":" (h ++ ":" ++ m)%string = [h; m]).
  { change (h ++ ":" ++ m)%string with (h ++ String ":" m)%string.
    rewrite (split_at_separator _ _ _ Hh), (split_without_separator _ _ Hm).
    reflexivity. }
  assert (Hne : JS.truthy (h ++ ":" ++ m)%string = true).
  { destruct h; reflexivity. }
  assert (Hinc : JS.includes ":" (h ++ ":" ++ m)%string = true).
  { rewrite includes_append. simpl. apply orb_true_r. }
  assert (Hdb : AvailabilityGrid.formatTimeForDB (Some (h ++ ":" ++ m)%string)
                = Some ((h ++ ":" ++ m) ++ ":00")%string).
  { unfold AvailabilityGrid.formatTimeForDB.
    rewrite Hne, Hinc, Hsplit. reflexivity. }
  split; [exact Hdb | ].
  rewrite Hdb. unfold PAShifts.formatTime.
  assert (Hne' : JS.truthy ((h ++ ":" ++ m) ++ ":00")%string = true).
  { destruct h; reflexivity. }
  rewrite Hne'. simpl negb. cbv iota.
  replace ((h ++ ":" ++ m) ++ ":00")%string
    with (h ++ String ":" (m ++ String ":" "00"))%string.
  - rewrite (split_at_separator _ _ _ Hh), (split_at_separator _ _ _ Hm).
    reflexivity.
  - rewrite append_assoc. reflexivity.
Qed.

Lemma digit_is_not_colon (c : ascii) :
  isDigit c = true -> Ascii.eqb c ":" = false.
Proof.
  unfold isDigit. intros H. apply andb_true_iff in H as [_ H].
  apply N.leb_le in H.
  apply Ascii.eqb_neq. intros ->. simpl in H. lia.
Qed.

(** C8: a time of the form HH:MM is persisted with ":00" appended, and
    displaying the persisted value gives the HH:MM string back; null
    is persisted as null. *)
Theorem time_format_round_trip :
  (forall t : string,
     isHHMM t = true ->
     AvailabilityGrid.formatTimeForDB (Some t) = Some (t ++ ":00")%string /\
     PAShifts.formatTime (AvailabilityGrid.formatTimeForDB (Some t)) = t) /\
  AvailabilityGrid.formatTimeForDB None = None.
Proof.
  split; [ | reflexivity].
  intros t Ht.
  destruct t as [ | h1 [ | h2 [ | sep [ | m1 [ | m2 [ | x t]]]]]]; try discriminate.
  simpl in Ht.
  apply andb_true_iff in Ht as [Ht Hm2].
  apply andb_true_iff in Ht as [Ht Hm1].
  apply andb_true_iff in Ht as [Ht Hsep].
  apply andb_true_iff in Ht as [Hh1 Hh2].
  apply Ascii.eqb_eq in Hsep; subst sep.
  apply (time_round_trip_parts (String h1 (String h2 "")) (String m1 (String m2 ""))).
  - unfold JS.includes. rewrite !digit_is_not_colon by assumption. reflexivity.
  - unfold JS.includes. rewrite !digit_is_not_colon by assumption. reflexivity.
Qed.

Lemma time_format_round_trip_witness :
  isHHMM "08:00" = true /\
  AvailabilityGrid.formatTimeForDB (Some "08:00") = Some "08:00:00" /\
  PAShifts.formatTime (AvailabilityGrid.formatTimeForDB (Some "08:00")) = "08:00".
Proof.
  split; [reflexivity | ].
  apply (proj1 time_format_round_trip "08:00"). reflexivity.
Defined.

(** ** Invite codes *)

Lemma floorMul_range (r : Q) :
  (0 <= r < 1)%Q ->
  (0 <= JS.floorMul r (String.length InviteCode.chars) < 32)%Z.
Proof.
  intros [Hlo Hhi]. unfold JS.floorMul.
  change (inject_Z (Z.of_nat (String.length InviteCode.chars))) with (32 # 1)%Q.
  split.
  - change 0%Z with (Qfloor 0). apply Qfloor_resp_le.
    unfold Qle in *. simpl in *. lia.
  - assert (H : (Qfloor (r * (32 # 1)) < Qfloor (32 # 1) + 1)%Z).
    { apply Z.lt_succ_r. apply Qfloor_resp_le.
      unfold Qle, Qlt in *. simpl in *. lia. }
    change (Qfloor (32 # 1)) with 32%Z in H.
    assert (Hne : Qfloor (r * (32 # 1)) <> 32%Z).
    { intros Heq.
      pose proof (Qfloor_le (r * (32 # 1))) as Hle. rewrite Heq in Hle.
      unfold Qle, Qlt in *. simpl in *. lia. }
    lia.
Qed.

Lemma charAt_in_alphabet (z : Z) :
  (0 <= z < 32)%Z ->
  exists c : ascii,
    JS.charAt InviteCode.chars z = String c EmptyString /\
    JS.includes c InviteCode.chars = true.
Proof.
  intros Hz. unfold JS.charAt.
  destruct (z <? 0)%Z eqn:Hneg; [apply Z.ltb_lt in Hneg; lia | ].
  assert (Hn : Z.to_nat z < 32) by lia.
  revert Hn. generalize (Z.to_nat z) as n. intros n Hn.
  do 32 (destruct n as [ | n]; [eexists; split; reflexivity | ]).
  lia.
Qed.

Lemma draw_in_alphabet (random : nat -> Q) (i : nat) :
  (forall k, 0 <= random k < 1)%Q ->
  exists c : ascii,
    JS.charAt InviteCode.chars
              (JS.floorMul (random i) (String.length InviteCode.chars))
      = String c EmptyString /\
    JS.includes c InviteCode.chars = true.
Proof.
  intros H. apply charAt_in_alphabet, floorMul_range, H.
Qed.

(** C9: whatever the random draws, the invite code has 7 characters,
    a hyphen at index 3 and, at the six other indices, symbols of the
    32-symbol alphabet, which contains none of I, O, 0 and 1. *)
Theorem generateInviteCode_format (random : nat -> Q) :
  (forall i, 0 <= random i < 1)%Q ->
  String.length (InviteCode.generateInviteCode random) = 7 /\
  String.get 3 (InviteCode.generateInviteCode random) = Some "-"%char /\
  (forall k, k < 7 -> k <> 3 ->
     exists c, String.get k (InviteCode.generateInviteCode random) = Some c /\
               JS.includes c InviteCode.chars = true) /\
  String.length InviteCode.chars = 32 /\
  JS.includes "I" InviteCode.chars = false /\
  JS.includes "O" InviteCode.chars = false /\
  JS.includes "0" InviteCode.chars = false /\
  JS.includes "1" InviteCode.chars = false.
Proof.
  intros H.
  destruct (draw_in_alphabet random 0 H) as (c0 & E0 & I0).
  destruct (draw_in_alphabet random 1 H) as (c1 & E1 & I1).
  destruct (draw_in_alphabet random 2 H) as (c2 & E2 & I2).
  destruct (draw_in_alphabet random 3 H) as (c3 & E3 & I3).
  destruct (draw_in_alphabet random 4 H) as (c4 & E4 & I4).
  destruct (draw_in_alphabet random 5 H) as (c5 & E5 & I5).
  assert (Hcode : InviteCode.generateInviteCode random
                  = String c0 (String c1 (String c2 (String "-"
                      (String c3 (String c4 (String c5 EmptyString))))))).
  { unfold InviteCode.generateInviteCode, InviteCode.loop.
    rewrite E0, E1, E2, E3, E4, E5. reflexivity. }
  rewrite Hcode.
  split; [reflexivity | ].
  split; [reflexivity | ].
  split.
  - intros k Hk Hk3.
    destruct k as [ | [ | [ | [ | [ | [ | [ | k]]]]]]];
      try lia; simpl; eauto.
  - repeat split; reflexivity.
Qed.

Lemma generateInviteCode_format_witness :
  (forall i : nat, 0 <= (fun _ : nat => 1 # 2) i < 1)%Q /\
  String.length (InviteCode.generateInviteCode (fun _ => 1 # 2)%Q) = 7.
Proof.
  assert (H : forall i : nat, (0 <= (fun _ : nat => 1 # 2) i < 1)%Q).
  { intros i. split; [discriminate | reflexivity]. }
  split; [exact H | ].
  exact (proj1 (generateInviteCode_format (fun _ => 1 # 2)%Q H)).
Defined.

(** ** Merging change-feed events *)

Section ShiftMerge.

Variable new : Shift.t.

Lemma some_id_count (l : list Shift.t) :
  JS.some (fun s => Shift.id s =? Shift.id new) l = false <->
  countShiftId (Shift.id new) l = 0.
Proof.
  unfold JS.some, countShiftId.
  induction l as [ | x l IH]; simpl.
  - tauto.
  - destruct (Shift.id x =? Shift.id new); simpl.
    + split; discriminate.
    + exact IH.
Qed.

Lemma count_replace (l : list Shift.t) :
  countShiftId (Shift.id new) (map (replaceShift new) l) = countShiftId (Shift.id new) l.
Proof.
  unfold countShiftId, replaceShift.
  induction l as [ | x l IH]; simpl.
  - reflexivity.
  - destruct (Shift.id x =? Shift.id new) eqn:E; simpl.
    + rewrite String.eqb_refl. simpl. now rewrite IH.
    + rewrite E. exact IH.
Qed.

Lemma count_push_back (l : list Shift.t) :
  countShiftId (Shift.id new) (JS.push_back l new)
  = S (countShiftId (Shift.id new) l).
Proof.
  unfold countShiftId, JS.push_back.
  rewrite filter_app, length_app. simpl.
  rewrite String.eqb_refl. simpl. lia.
Qed.

Lemma replace_idempotent (l : list Shift.t) :
  map (replaceShift new) (map (replaceShift new) l) = map (replaceShift new) l.
Proof.
  rewrite map_map. apply map_ext. intros x. unfold replaceShift.
  destruct (Shift.id x =? Shift.id new) eqn:E.
  - now rewrite String.eqb_refl.
  - now rewrite E.
Qed.

Lemma replace_push_back (l : list Shift.t) :
  JS.some (fun s => Shift.id s =? Shift.id new) l = false ->
  map (replaceShift new) (JS.push_back l new) = JS.push_back l new.
Proof.
  unfold JS.some, JS.push_back. intros H.
  rewrite map_app. simpl. unfold replaceShift at 2. rewrite String.eqb_refl.
  f_equal.
  induction l as [ | x l IH]; simpl in *.
  - reflexivity.
  - apply orb_false_iff in H as [Hx Hl].
    unfold replaceShift at 1. rewrite Hx. now rewrite (IH Hl).
Qed.

Lemma some_after_replace (l : list Shift.t) :
  JS.some (fun s => Shift.id s =? Shift.id new) (map (replaceShift new) l)
  = JS.some (fun s => Shift.id s =? Shift.id new) l.
Proof.
  unfold JS.some, replaceShift.
  induction l as [ | x l IH]; simpl.
  - reflexivity.
  - destruct (Shift.id x =? Shift.id new) eqn:E; simpl.
    + now rewrite String.eqb_refl.
    + now rewrite E, IH.
Qed.

Lemma some_after_push_back (l : list Shift.t) :
  JS.some (fun s => Shift.id s =? Shift.id new) (JS.push_back l new) = true.
Proof.
  unfold JS.some, JS.push_back. rewrite existsb_app. simpl.
  rewrite String.eqb_refl. now rewrite orb_true_r.
Qed.

(** The insert branch shared by the three handlers on [shifts]
    (replace when present, append otherwise) absorbs a repeated
    delivery and leaves one record when there was at most one. *)
Lemma grid_shift_insert_idempotent (prev : list Shift.t) :
  AvailabilityGrid.onShiftsChange (INSERT new)
    (AvailabilityGrid.onShiftsChange (INSERT new) prev)
  = AvailabilityGrid.onShiftsChange (INSERT new) prev /\
  (countShiftId (Shift.id new) prev <= 1 ->
   countShiftId (Shift.id new)
     (AvailabilityGrid.onShiftsChange (INSERT new) prev) = 1).
Proof.
  unfold AvailabilityGrid.onShiftsChange. change (fun shift : Shift.t => if Shift.id shift =? Shift.id new then new else shift) with (replaceShift new).
  destruct (JS.some _ prev) eqn:E.
  - rewrite some_after_replace, E. split.
    + apply replace_idempotent.
    + intros H. rewrite count_replace.
      destruct (countShiftId (Shift.id new) prev) eqn:C; [ | lia].
      apply some_id_count in C. congruence.
  - rewrite some_after_push_back. split.
    + now apply replace_push_back.
    + intros _. rewrite count_push_back.
      apply some_id_count in E. now rewrite E.
Qed.

Lemma overview_shift_insert_idempotent (prev : list Shift.t) :
  DailyOverview.onShiftsChange (INSERT new)
    (DailyOverview.onShiftsChange (INSERT new) prev)
  = DailyOverview.onShiftsChange (INSERT new) prev /\
  (countShiftId (Shift.id new) prev <= 1 ->
   countShiftId (Shift.id new)
     (DailyOverview.onShiftsChange (INSERT new) prev) = 1).
Proof. exact (grid_shift_insert_idempotent prev). Qed.

Lemma pa_shift_insert_idempotent (prev : list Shift.t) :
  PAShifts.onShiftsChange (INSERT new)
    (PAShifts.onShiftsChange (INSERT new) prev)
  = PAShifts.onShiftsChange (INSERT new) prev /\
  (JS.truthy (Shift.id new) = true ->
   countShiftId (Shift.id new) prev <= 1 ->
   countShiftId (Shift.id new)
     (PAShifts.onShiftsChange (INSERT new) prev) = 1).
Proof.
  unfold PAShifts.onShiftsChange.
  destruct (JS.truthy (Shift.id new)); simpl.
  - split; [ | intros _]; apply grid_shift_insert_idempotent.
  - split; [reflexivity | discriminate].
Qed.

(** The update branch of the PA shift list: afterwards the store
    holds the new row, whether or not the identifier was known. *)
Lemma pa_shift_update_upserts (old : OldRow) (prev : list Shift.t) :
  JS.truthy (Shift.id new) = true ->
  In new (PAShifts.onShiftsChange (UPDATE new old) prev) /\
  forall s, In s (PAShifts.onShiftsChange (UPDATE new old) prev) ->
            Shift.id s = Shift.id new -> s = new.
Proof.
  intros Hid. unfold PAShifts.onShiftsChange. rewrite Hid. simpl.
  destruct (JS.some _ prev) eqn:E; simpl.
  - split.
    + unfold JS.some in E. apply existsb_exists in E as (x & Hx & Ex).
      apply in_map_iff. exists x. now rewrite Ex.
    + intros s Hs Hsid. apply in_map_iff in Hs as (x & <- & _).
      destruct (Shift.id x =? Shift.id new) eqn:Ex; [reflexivity | ].
      apply String.eqb_neq in Ex. contradiction.
  - unfold JS.push_back. split.
    + apply in_or_app. right. now left.
    + intros s Hs Hsid. apply in_app_or in Hs as [Hs | [Hs | []]].
      * exfalso. unfold JS.some in E.
        assert (existsb (fun s0 => Shift.id s0 =? Shift.id new) prev = true).
        { apply existsb_exists. exists s. split; [exact Hs | ].
          now apply String.eqb_eq. }
        congruence.
      * now symmetry.
Qed.

End ShiftMerge.

(** The insert branch of both handlers on [availability] appends
    without looking for the identifier. *)
Lemma availability_insert_appends (new : Availability.t)
      (prev : list Availability.t) :
  AvailabilityGrid.onAvailabilityChange (INSERT new) prev = prev ++ [new] /\
  countAvailabilityId (Availability.id new)
    (AvailabilityGrid.onAvailabilityChange (INSERT new)
       (AvailabilityGrid.onAvailabilityChange (INSERT new) prev))
  = 2 + countAvailabilityId (Availability.id new) prev.
Proof.
  split; [reflexivity | ].
  unfold AvailabilityGrid.onAvailabilityChange, JS.push_back, countAvailabilityId.
  rewrite !filter_app, !length_app. simpl.
  rewrite String.eqb_refl. simpl. lia.
Qed.

(** C1: on the availability handlers the property fails.  Delivering
    the same insert event twice to the PC grid, or to the PA calendar
    showing March 2025, leaves two records with the event's identifier,
    starting from an empty collection. *)
Theorem availability_insert_twice_keeps_two :
  let a := Availability.mk "a1" "u1" "2025-03-10" preferred None None None in
  AvailabilityGrid.onAvailabilityChange (INSERT a)
    (AvailabilityGrid.onAvailabilityChange (INSERT a) []) = [a; a] /\
  countAvailabilityId "a1"
    (AvailabilityGrid.onAvailabilityChange (INSERT a)
       (AvailabilityGrid.onAvailabilityChange (INSERT a) [])) = 2 /\
  PACalendar.onAvailabilityChange "2025-03-01" "2025-03-31" (INSERT a)
    (PACalendar.onAvailabilityChange "2025-03-01" "2025-03-31" (INSERT a) [])
  = [a; a] /\
  countAvailabilityId "a1"
    (PACalendar.onAvailabilityChange "2025-03-01" "2025-03-31" (INSERT a)
       (PACalendar.onAvailabilityChange "2025-03-01" "2025-03-31" (INSERT a) []))
  = 2.
Proof.
  repeat split.
Qed.

(** The update branch of a replace-only handler changes nothing when
    the identifier is unknown. *)
Lemma availability_update_absent (new : Availability.t) (old : OldRow)
      (prev : list Availability.t) :
  countAvailabilityId (Availability.id new) prev = 0 ->
  AvailabilityGrid.onAvailabilityChange (UPDATE new old) prev = prev.
Proof.
  unfold AvailabilityGrid.onAvailabilityChange, countAvailabilityId.
  induction prev as [ | x prev IH]; simpl; intros H.
  - reflexivity.
  - destruct (Availability.id x =? Availability.id new); simpl in H.
    + discriminate.
    + now rewrite (IH H).
Qed.

(** C3: of the update handlers only the PA shift list adds a row whose
    identifier is unknown.  On an empty collection the update event of
    a row is lost by the availability handlers of the PC grid and of
    the PA calendar (showing March 2025) and by the shift handlers of
    the PC grid and of the daily overview; the PA shift list keeps it. *)
Theorem update_of_unknown_row_is_lost :
  let a := Availability.mk "a1" "u1" "2025-03-10" preferred None None None in
  let s := Shift.mk "s1" "2025-03-10" "u1" "c1" None None pending None None in
  let old := mkOld (Some "a1") None in
  AvailabilityGrid.onAvailabilityChange (UPDATE a old) [] = [] /\
  PACalendar.onAvailabilityChange "2025-03-01" "2025-03-31" (UPDATE a old) [] = [] /\
  AvailabilityGrid.onShiftsChange (UPDATE s (mkOld (Some "s1") None)) [] = [] /\
  DailyOverview.onShiftsChange (UPDATE s (mkOld (Some "s1") None)) [] = [] /\
  PAShifts.onShiftsChange (UPDATE s (mkOld (Some "s1") None)) [] = [s].
Proof.
  repeat split.
Qed.

(** ** The visible date window *)

(** C4, as stated, fails on the PC grid: with the week of 2025-03-10
    on screen, an insert event dated 2030-01-01 is added to the
    collection. *)
Lemma grid_applies_event_outside_week :
  let a := Availability.mk "a9" "u1" "2030-01-01" available None None None in
  let monday := "2025-03-10" in
  let sunday := "2025-03-16" in
  JS.ge (Availability.date a) monday && JS.le (Availability.date a) sunday = false /\
  AvailabilityGrid.onAvailabilityChange (INSERT a) [] = [a] /\
  AvailabilityGrid.onAvailabilityChange (INSERT a) [] <> [].
Proof.
  repeat split. discriminate.
Qed.

(** C4, amended: the PA calendar drops every event whose changed date
    (the new row's date or, when that is missing, the old row's) lies
    outside the month on screen; the PC grid's availability handler
    has no date test and appends inserted rows whatever their date. *)
Theorem pa_calendar_drops_events_outside_month :
  (forall (monthStartDate monthEndDate d : string)
          (p : Payload Availability.t) (prev : list Availability.t),
      PACalendar.changedDate p = Some d ->
      JS.ge d monthStartDate && JS.le d monthEndDate = false ->
      PACalendar.onAvailabilityChange monthStartDate monthEndDate p prev = prev) /\
  (forall (new : Availability.t) (prev : list Availability.t),
      AvailabilityGrid.onAvailabilityChange (INSERT new) prev = prev ++ [new]).
Proof.
  split.
  - intros lo hi d p prev Hd Hout.
    unfold PACalendar.onAvailabilityChange, PACalendar.inMonthView.
    rewrite Hd.
    rewrite <- andb_assoc, Hout, andb_false_r. reflexivity.
  - reflexivity.
Qed.

Lemma pa_calendar_drops_events_outside_month_witness :
  let a := Availability.mk "a9" "u1" "2030-01-01" available None None None in
  let b := Availability.mk "a1" "u1" "2025-03-10" preferred None None None in
  PACalendar.changedDate (INSERT a) = Some "2030-01-01" /\
  JS.ge "2030-01-01" "2025-03-01" && JS.le "2030-01-01" "2025-03-31" = false /\
  PACalendar.onAvailabilityChange "2025-03-01" "2025-03-31" (INSERT a) [b] = [b].
Proof.
  split; [reflexivity | ].
  split; [reflexivity | ].
  apply (proj1 pa_calendar_drops_events_outside_month
               "2025-03-01" "2025-03-31" "2030-01-01"); reflexivity.
Defined.

(** ** Optimistic apply and rollback *)

Lemma unique_by_id (l : list Shift.t) (x y : Shift.t) :
  NoDup (map Shift.id l) ->
  In x l -> In y l -> Shift.id x = Shift.id y -> x = y.
Proof.
  induction l as [ | z l IH]; simpl; intros Hnd Hx Hy Hid.
  - contradiction.
  - inversion Hnd as [ | ? ? Hnotin Hnd']; subst.
    destruct Hx as [-> | Hx], Hy as [-> | Hy].
    + reflexivity.
    + exfalso. apply Hnotin. rewrite Hid. now apply in_map.
    + exfalso. apply Hnotin. rewrite <- Hid. now apply in_map.
    + now apply IH.
Qed.

Lemma find_some_in (shiftId : string) (l : list Shift.t) (previous : Shift.t) :
  JS.find (fun s => Shift.id s =? shiftId) l = Some previous ->
  In previous l /\ Shift.id previous = shiftId.
Proof.
  unfold JS.find. intros H. apply find_some in H as [Hin Hid].
  split; [exact Hin | now apply String.eqb_eq].
Qed.

Lemma find_none_map (shiftId : string) (f : Shift.t -> Shift.t)
      (l : list Shift.t) :
  JS.find (fun s => Shift.id s =? shiftId) l = None ->
  map (fun shift => if Shift.id shift =? shiftId then f shift else shift) l = l.
Proof.
  unfold JS.find. intros H.
  induction l as [ | x l IH]; simpl in *.
  - reflexivity.
  - destruct (Shift.id x =? shiftId); [discriminate | ].
    now rewrite (IH H).
Qed.

(** Putting the captured record back undoes the optimistic status
    change when identifiers are unique. *)
Lemma put_back_undoes (target : ConfirmationStatus) (shiftId : string)
      (l : list Shift.t) (previous : Shift.t) :
  NoDup (map Shift.id l) ->
  In previous l -> Shift.id previous = shiftId ->
  map (fun shift => if Shift.id shift =? shiftId then previous else shift)
      (map (fun shift =>
              if Shift.id shift =? shiftId
              then Shift.with_confirmation_status shift target
              else shift) l)
  = l.
Proof.
  intros Hnd Hin Hid.
  rewrite map_map.
  rewrite <- (map_id l) at 2.
  apply map_ext_in. intros x Hx.
  destruct (Shift.id x =? shiftId) eqn:E; simpl.
  - rewrite E. apply String.eqb_eq in E.
    apply (unique_by_id l); auto. congruence.
  - now rewrite E.
Qed.

Lemma transition_rollback (target : ConfirmationStatus)
      (t1 t2 t3 t4 t5 : string) (w : World) (error : Thrown)
      (userId shiftId : string) (st : PAShifts.State) :
  persistence w = DbError error ->
  NoDup (map Shift.id (PAShifts.shifts st)) ->
  PAShifts.shifts
    (PAShifts.state
       (PAShifts.transition target t1 t2 t3 t4 t5 w userId shiftId st))
  = PAShifts.shifts st.
Proof.
  intros Hw Hnd. unfold PAShifts.transition. rewrite Hw. simpl.
  destruct (JS.find _ (PAShifts.shifts st)) as [previous | ] eqn:F.
  - apply find_some_in in F as [Hin Hid].
    now apply put_back_undoes.
  - now apply find_none_map.
Qed.

Lemma filter_fresh (i : string) (l : list Shift.t) :
  (forall s, In s l -> Shift.id s <> i) ->
  filter (fun s => negb (Shift.id s =? i)) l = l.
Proof.
  induction l as [ | x l IH]; simpl; intros H.
  - reflexivity.
  - assert (E : (Shift.id x =? i) = false).
    { apply String.eqb_neq. apply H. now left. }
    rewrite E. simpl. f_equal. apply IH. intros s Hs. apply H. now right.
Qed.

(** Removing a record by identifier and appending it again permutes
    the collection when identifiers are unique. *)
Lemma remove_then_append (l : list Shift.t) (s : Shift.t) :
  NoDup (map Shift.id l) -> In s l ->
  Permutation
    (JS.push_back (filter (fun x => negb (Shift.id x =? Shift.id s)) l) s) l.
Proof.
  intros Hnd Hin. unfold JS.push_back.
  apply in_split in Hin as (l1 & l2 & ->).
  rewrite map_app in Hnd. simpl in Hnd.
  pose proof (NoDup_remove_2 _ _ _ Hnd) as Hnotin.
  rewrite filter_app. simpl. rewrite String.eqb_refl. simpl.
  rewrite !filter_fresh.
  - rewrite <- app_assoc. apply Permutation_app_head.
    apply Permutation_sym, Permutation_cons_append.
  - intros x Hx Hid. apply Hnotin. apply in_or_app. right.
    rewrite <- Hid. now apply in_map.
  - intros x Hx Hid. apply Hnotin. apply in_or_app. left.
    rewrite <- Hid. now apply in_map.
Qed.

(** X24: what the failure handlers do restore.  When the persistence
    call fails and the identifiers in the collection are pairwise
    distinct, confirm and decline leave exactly the list found before
    the optimistic apply; so does create when the temporary identifier
    is not in use; and delete, when the shift selected for removal is
    still a record of the collection, appends that record again, so
    the records are the same up to order. *)
Theorem rollback_restores_collection (w : World) (error : Thrown) :
  persistence w = DbError error ->
  (forall (userId shiftId : string) (st : PAShifts.State),
      NoDup (map Shift.id (PAShifts.shifts st)) ->
      PAShifts.shifts (PAShifts.state (PAShifts.confirmShift w userId shiftId st))
      = PAShifts.shifts st /\
      PAShifts.shifts (PAShifts.state (PAShifts.declineShift w userId shiftId st))
      = PAShifts.shifts st) /\
  (forall st : AvailabilityGrid.State,
      (forall s, In s (AvailabilityGrid.shifts st) ->
                 Shift.id s <> AvailabilityGrid.tempId w) ->
      AvailabilityGrid.shifts (AvailabilityGrid.state (AvailabilityGrid.createShift w st))
      = AvailabilityGrid.shifts st) /\
  (forall st : AvailabilityGrid.State,
      NoDup (map Shift.id (AvailabilityGrid.shifts st)) ->
      (forall cell s, AvailabilityGrid.selectedCell st = Some cell ->
                      AvailabilityGrid.shift cell = Some s ->
                      In s (AvailabilityGrid.shifts st)) ->
      Permutation
        (AvailabilityGrid.shifts (AvailabilityGrid.state (AvailabilityGrid.deleteShift w st)))
        (AvailabilityGrid.shifts st)).
Proof.
  intros Hw. split; [ | split].
  - intros userId shiftId st Hnd. split.
    + unfold PAShifts.confirmShift. now apply (transition_rollback _ _ _ _ _ _ w error).
    + unfold PAShifts.declineShift.
      destruct (confirmDialog w); simpl; [ | reflexivity].
      now apply (transition_rollback _ _ _ _ _ _ w error).
  - intros st Hfresh. unfold AvailabilityGrid.createShift.
    destruct (AvailabilityGrid.currentUserId st) as [uid | ]; [ | reflexivity].
    destruct (AvailabilityGrid.selectedCell st) as [cell | ]; [ | reflexivity].
    destruct (JS.truthy uid); simpl; [ | reflexivity].
    rewrite Hw. simpl. unfold JS.push_back.
    rewrite filter_app. simpl. rewrite String.eqb_refl. simpl.
    rewrite app_nil_r. now apply filter_fresh.
  - intros st Hnd Hsel. unfold AvailabilityGrid.deleteShift.
    destruct (AvailabilityGrid.selectedCell st) as [cell | ]; [ | reflexivity].
    destruct (AvailabilityGrid.shift cell) as [s | ] eqn:Hs; [ | reflexivity].
    destruct (confirmDialog w); simpl; [ | reflexivity].
    rewrite Hw. simpl.
    apply remove_then_append; [exact Hnd | ].
    now apply (Hsel cell).
Qed.

Lemma rollback_restores_collection_witness :
  let s1 := Shift.mk "s1" "2025-03-10" "p1" "c1" (Some "08:00:00")
                     (Some "18:00:00") pending None None in
  let s2 := Shift.mk "s2" "2025-03-11" "p1" "c1" None None confirmed None None in
  let w := mkWorld (DbError (ErrorObject "write refused")) (fun _ => None)
                   EmailOk true 1741600000000%N "2025-03-10T09:46:40.000Z" in
  let cell := AvailabilityGrid.mkCell "p1" "Pat" "2025-03-10" "Mon 3/10"
                                      (Some available) (Some s1) None in
  let pa := PAShifts.mkState [s1; s2] None in
  let grid := AvailabilityGrid.mkState "2025-03-10" [s1; s2] [] (Some "c1")
                (Some cell) false true false false "08:00" "18:00" "" in
  PAShifts.shifts (PAShifts.state (PAShifts.confirmShift w "p1" "s1" pa)) = [s1; s2] /\
  PAShifts.shifts (PAShifts.state (PAShifts.declineShift w "p1" "s1" pa)) = [s1; s2] /\
  AvailabilityGrid.shifts (AvailabilityGrid.state (AvailabilityGrid.createShift w grid))
  = [s1; s2] /\
  Permutation
    (AvailabilityGrid.shifts (AvailabilityGrid.state (AvailabilityGrid.deleteShift w grid)))
    [s1; s2].
Proof.
  intros s1 s2 w cell pa grid.
  destruct (rollback_restores_collection w (ErrorObject "write refused") eq_refl)
    as (Hpa & Hcreate & Hdelete).
  assert (Hnd : NoDup (map Shift.id [s1; s2])).
  { simpl. repeat constructor; simpl; intuition discriminate. }
  split; [exact (proj1 (Hpa "p1" "s1" pa Hnd)) | ].
  split; [exact (proj2 (Hpa "p1" "s1" pa Hnd)) | ].
  split.
  - apply (Hcreate grid). intros s [<- | [<- | []]]; discriminate.
  - apply (Hdelete grid Hnd).
    intros c s Hc Hs. injection Hc as <-. injection Hs as <-. now left.
Defined.

(** C2: the property fails on [deleteShift].  The dialog keeps the
    shift as it was when the cell was clicked; the change feed then
    replaces the record in the collection only.  When the delete is
    refused, the failure handler appends the dialog's copy: starting
    from a collection holding the shift as confirmed, it ends holding
    it as pending, which is not the collection found before the
    optimistic removal. *)
Theorem failed_delete_puts_back_stale_shift :
  let pat := User.mk "p1" "pat@example.org" "Pat" PA None None None None None None in
  let day := DateInfo.mk "2025-03-10" "Mon 3/10" in
  let asPending := Shift.mk "s1" "2025-03-10" "p1" "c1" (Some "08:00:00")
                            (Some "18:00:00") pending None None in
  let asConfirmed := Shift.mk "s1" "2025-03-10" "p1" "c1" (Some "08:00:00")
                              (Some "18:00:00") confirmed None None in
  let st0 := AvailabilityGrid.mkState "2025-03-10" [asPending] [] (Some "c1") None
               false false false false "" "" "" in
  let clicked := AvailabilityGrid.onCellClick pat day st0 in
  let before :=
    AvailabilityGrid.setShifts
      (AvailabilityGrid.onShiftsChange (UPDATE asConfirmed (mkOld (Some "s1") None)))
      clicked in
  let w := mkWorld (DbError (ErrorObject "delete refused")) (fun _ => None)
                   EmailOk true 1741600000000%N "2025-03-10T09:46:40.000Z" in
  let after := AvailabilityGrid.state (AvailabilityGrid.deleteShift w before) in
  AvailabilityGrid.shifts before = [asConfirmed] /\
  AvailabilityGrid.shifts after = [asPending] /\
  ~ Permutation (AvailabilityGrid.shifts after) (AvailabilityGrid.shifts before).
Proof.
  intros pat day asPending asConfirmed st0 clicked before w after.
  split; [reflexivity | ]. split; [reflexivity | ].
  change (AvailabilityGrid.shifts after) with [asPending].
  change (AvailabilityGrid.shifts before) with [asConfirmed].
  intros Hperm. apply Permutation_length_1 in Hperm. discriminate Hperm.
Qed.

(** ** Notifications are best effort *)

(** C7: once the persistence write has succeeded, the outcome of the
    email attempt (delivered, refused, or an exception) changes neither
    the final state nor the toast: confirm, decline and create end with
    the committed collection and their success message.  Only the
    console lines differ. *)
Theorem notification_failure_keeps_commit
        (data : Shift.t) (users : string -> option UserDetails)
        (e : EmailOutcome) (answer : bool) (now : N) (iso : string) :
  let world := fun (outcome : EmailOutcome) (ok : bool) =>
                 mkWorld (DbRow data) users outcome ok now iso in
  (forall (userId shiftId : string) (st : PAShifts.State),
      PAShifts.state (PAShifts.confirmShift (world e answer) userId shiftId st)
      = PAShifts.state (PAShifts.confirmShift (world EmailOk answer) userId shiftId st) /\
      PAShifts.shifts
        (PAShifts.state (PAShifts.confirmShift (world e answer) userId shiftId st))
      = map (fun shift =>
               if Shift.id shift =? shiftId
               then Shift.with_confirmation_status shift confirmed
               else shift) (PAShifts.shifts st) /\
      PAShifts.toasts (PAShifts.confirmShift (world e answer) userId shiftId st)
      = [toast_success "Shift confirmed!"]) /\
  (forall (userId shiftId : string) (st : PAShifts.State),
      PAShifts.state (PAShifts.declineShift (world e answer) userId shiftId st)
      = PAShifts.state (PAShifts.declineShift (world EmailOk answer) userId shiftId st) /\
      PAShifts.shifts
        (PAShifts.state (PAShifts.declineShift (world e true) userId shiftId st))
      = map (fun shift =>
               if Shift.id shift =? shiftId
               then Shift.with_confirmation_status shift declined
               else shift) (PAShifts.shifts st) /\
      PAShifts.toasts (PAShifts.declineShift (world e true) userId shiftId st)
      = [toast_success "Shift declined."]) /\
  (forall st : AvailabilityGrid.State,
      AvailabilityGrid.state (AvailabilityGrid.createShift (world e answer) st)
      = AvailabilityGrid.state (AvailabilityGrid.createShift (world EmailOk answer) st) /\
      AvailabilityGrid.toasts (AvailabilityGrid.createShift (world e answer) st)
      = AvailabilityGrid.toasts (AvailabilityGrid.createShift (world EmailOk answer) st)) /\
  (forall (st : AvailabilityGrid.State) (uid : string)
          (cell : AvailabilityGrid.SelectedCell),
      AvailabilityGrid.currentUserId st = Some uid ->
      JS.truthy uid = true ->
      AvailabilityGrid.selectedCell st = Some cell ->
      AvailabilityGrid.shifts
        (AvailabilityGrid.state (AvailabilityGrid.createShift (world e answer) st))
      = filter (fun s => negb (Shift.id s =? AvailabilityGrid.tempId (world e answer)))
               (AvailabilityGrid.shifts st) ++ [data] /\
      AvailabilityGrid.toasts (AvailabilityGrid.createShift (world e answer) st)
      = [toast_success "Shift assigned successfully!"]).
Proof.
  intros world. split; [ | split; [ | split]].
  - intros userId shiftId st. unfold PAShifts.confirmShift, world.
    repeat split.
  - intros userId shiftId st. unfold PAShifts.declineShift, world. simpl.
    split.
    + destruct answer; reflexivity.
    + split; reflexivity.
  - intros st. unfold AvailabilityGrid.createShift, world.
    destruct (AvailabilityGrid.currentUserId st) as [uid | ];
      [ | split; reflexivity].
    destruct (AvailabilityGrid.selectedCell st) as [cell | ];
      [ | split; reflexivity].
    destruct (JS.truthy uid); split; reflexivity.
  - intros st uid cell Huid Htruthy Hcell.
    unfold AvailabilityGrid.createShift, world.
    rewrite Huid, Hcell, Htruthy. simpl.
    unfold JS.push_back. rewrite filter_app. simpl.
    rewrite String.eqb_refl. simpl. rewrite app_nil_r.
    split; reflexivity.
Qed.

Lemma notification_failure_keeps_commit_witness :
  let s1 := Shift.mk "temp-1741600000000" "2025-03-10" "p1" "c1"
                     (Some "08:00:00") (Some "18:00:00") pending
                     (Some "2025-03-10T09:46:40.000Z")
                     (Some "2025-03-10T09:46:40.000Z") in
  let data := Shift.mk "s7" "2025-03-10" "p1" "c1" (Some "08:00:00")
                       (Some "18:00:00") pending None None in
  let users := fun _ : string => Some (mkDetails "pat@example.org" "Pat") in
  let w := mkWorld (DbRow data) users (EmailThrew (ErrorObject "network down"))
                   true 1741600000000%N "2025-03-10T09:46:40.000Z" in
  let cell := AvailabilityGrid.mkCell "p1" "Pat" "2025-03-10" "Mon 3/10"
                                      (Some available) None None in
  let grid := AvailabilityGrid.mkState "2025-03-10" [] [] (Some "c1")
                (Some cell) true false false false "08:00" "18:00" "" in
  JS.truthy "c1" = true /\
  AvailabilityGrid.shifts (AvailabilityGrid.state (AvailabilityGrid.createShift w grid))
  = [data] /\
  AvailabilityGrid.toasts (AvailabilityGrid.createShift w grid)
  = [toast_success "Shift assigned successfully!"] /\
  AvailabilityGrid.console (AvailabilityGrid.createShift w grid)
  = [console_error "Failed to send shift assignment email:"].
Proof.
  intros s1 data users w cell grid.
  split; [reflexivity | ].
  pose proof (notification_failure_keeps_commit
                data users (EmailThrew (ErrorObject "network down")) true
                1741600000000%N "2025-03-10T09:46:40.000Z") as H.
  destruct H as (_ & _ & _ & H).
  destruct (H grid "c1" cell eq_refl eq_refl eq_refl) as [Hshifts Htoasts].
  split; [exact Hshifts | ].
  split; [exact Htoasts | reflexivity].
Defined.

(** ** Sorting the PA shift list *)

Lemma string_compare_trans (a b c : string) :
  String.compare a b <> Gt -> String.compare b c <> Gt ->
  String.compare a c <> Gt.
Proof.
  revert b c.
  induction a as [ | x a IH]; intros [ | y b] [ | z c]; simpl;
    try congruence.
  unfold Ascii.compare.
  destruct (N.compare_spec (N_of_ascii x) (N_of_ascii y)) as [Exy | Lxy | Gxy];
    destruct (N.compare_spec (N_of_ascii y) (N_of_ascii z)) as [Eyz | Lyz | Gyz];
    destruct (N.compare_spec (N_of_ascii x) (N_of_ascii z)) as [Exz | Lxz | Gxz];
    try congruence; try lia.
  apply IH.
Qed.

Lemma string_leb_trans (a b c : string) :
  String.leb a b = true -> String.leb b c = true -> String.leb a c = true.
Proof.
  unfold String.leb. intros Hab Hbc.
  pose proof (string_compare_trans a b c) as H.
  destruct (String.compare a b), (String.compare b c),
    (String.compare a c); try reflexivity; try discriminate;
    exfalso; apply H; congruence.
Qed.

Lemma localeCompare_le (a b : string) :
  (JS.localeCompare a b <=? 0)%Z = String.leb a b.
Proof.
  unfold JS.localeCompare, String.leb.
  destruct (String.compare a b); reflexivity.
Qed.

(** The comparator says "not after" exactly when a pending shift
    meets a non-pending one, or both are in the same group and the
    dates are in order. *)
Lemma compareShifts_le (a b : Shift.t) :
  (PAShifts.compareShifts a b <=? 0)%Z
  = (PAShifts.isPending a && negb (PAShifts.isPending b))
    || (Bool.eqb (PAShifts.isPending a) (PAShifts.isPending b)
        && String.leb (Shift.date a) (Shift.date b)).
Proof.
  unfold PAShifts.compareShifts.
  destruct (PAShifts.isPending a), (PAShifts.isPending b); simpl;
    try reflexivity; apply localeCompare_le.
Qed.

Section StableSort.

Variable A : Type.
Variable cmp : A -> A -> Z.

Hypothesis cmp_total : forall x y, notAfter cmp x y \/ notAfter cmp y x.
Hypothesis cmp_trans : forall x y z, notAfter cmp x y -> notAfter cmp y z -> notAfter cmp x z.

Lemma insert_permutation (x : A) (l : list A) :
  Permutation (JS.insert cmp x l) (x :: l).
Proof.
  induction l as [ | y l IH]; simpl.
  - apply Permutation_refl.
  - destruct (cmp x y <=? 0)%Z.
    + apply Permutation_refl.
    + eapply perm_trans; [apply perm_skip, IH | apply perm_swap].
Qed.

Lemma sort_permutation (l : list A) : Permutation (JS.sort cmp l) l.
Proof.
  unfold JS.sort. induction l as [ | x l IH]; simpl.
  - apply perm_nil.
  - eapply perm_trans; [apply insert_permutation | now apply perm_skip].
Qed.

Lemma insert_sorted (x : A) (l : list A) :
  StronglySorted (notAfter cmp) l -> StronglySorted (notAfter cmp) (JS.insert cmp x l).
Proof.
  induction 1 as [ | y l Hl IH Hy]; simpl.
  - repeat constructor.
  - destruct (cmp x y <=? 0)%Z eqn:E.
    + constructor; [now constructor | ].
      constructor; [exact E | ].
      apply Forall_forall. intros z Hz.
      apply (cmp_trans x y z E).
      rewrite Forall_forall in Hy. now apply Hy.
    + constructor; [exact IH | ].
      assert (Hyx : notAfter cmp y x).
      { destruct (cmp_total x y) as [H | H]; [unfold notAfter in H; congruence | exact H]. }
      apply Forall_forall. intros z Hz.
      apply (Permutation_in _ (insert_permutation x l)) in Hz.
      destruct Hz as [<- | Hz]; [exact Hyx | ].
      rewrite Forall_forall in Hy. now apply Hy.
Qed.

Lemma sort_sorted (l : list A) : StronglySorted (notAfter cmp) (JS.sort cmp l).
Proof.
  unfold JS.sort. induction l as [ | x l IH]; simpl.
  - constructor.
  - now apply insert_sorted.
Qed.

Lemma sorted_earlier_not_after (l l1 l2 l3 : list A) (a b : A) :
  StronglySorted (notAfter cmp) l ->
  l = l1 ++ a :: l2 ++ b :: l3 ->
  notAfter cmp a b.
Proof.
  intros Hs ->. revert Hs.
  induction l1 as [ | x l1 IH]; simpl; intros Hs.
  - inversion Hs as [ | ? ? _ Hall]; subst.
    rewrite Forall_forall in Hall. apply Hall.
    apply in_or_app. right. now left.
  - inversion Hs; subst. now apply IH.
Qed.

End StableSort.

Lemma compareShifts_total (x y : Shift.t) :
  (PAShifts.compareShifts x y <=? 0)%Z = true \/
  (PAShifts.compareShifts y x <=? 0)%Z = true.
Proof.
  rewrite !compareShifts_le.
  destruct (String.leb_total (Shift.date x) (Shift.date y)) as [H | H];
    rewrite H;
    destruct (PAShifts.isPending x), (PAShifts.isPending y); simpl; auto.
Qed.

Lemma compareShifts_trans (x y z : Shift.t) :
  (PAShifts.compareShifts x y <=? 0)%Z = true ->
  (PAShifts.compareShifts y z <=? 0)%Z = true ->
  (PAShifts.compareShifts x z <=? 0)%Z = true.
Proof.
  rewrite !compareShifts_le.
  pose proof (string_leb_trans (Shift.date x) (Shift.date y) (Shift.date z)) as T.
  destruct (PAShifts.isPending x), (PAShifts.isPending y),
    (PAShifts.isPending z); simpl; auto; discriminate.
Qed.

Lemma isPending_iff (s : Shift.t) :
  PAShifts.isPending s = true <-> Shift.confirmation_status s = pending.
Proof.
  unfold PAShifts.isPending.
  destruct (Shift.confirmation_status s); split; congruence.
Qed.

(** C10: the sorted list is a rearrangement of the given shifts, with
    nothing added, dropped or altered; no non-pending shift comes
    before a pending one; and of two shifts that are both pending or
    both non-pending, the earlier in the list has the smaller or equal
    date in string order. *)
Theorem sortedShifts_pending_first_then_date (shifts : list Shift.t) :
  Permutation (PAShifts.sortedShifts shifts) shifts /\
  forall (l1 l2 l3 : list Shift.t) (a b : Shift.t),
    PAShifts.sortedShifts shifts = l1 ++ a :: l2 ++ b :: l3 ->
    (Shift.confirmation_status b = pending ->
     Shift.confirmation_status a = pending) /\
    ((Shift.confirmation_status a = pending <->
      Shift.confirmation_status b = pending) ->
     String.leb (Shift.date a) (Shift.date b) = true).
Proof.
  split.
  - apply sort_permutation.
  - intros l1 l2 l3 a b Hdec.
    assert (H : (PAShifts.compareShifts a b <=? 0)%Z = true).
    { apply (sorted_earlier_not_after _ PAShifts.compareShifts
               (PAShifts.sortedShifts shifts) l1 l2 l3 a b);
        [ | exact Hdec].
      apply sort_sorted.
      - exact compareShifts_total.
      - exact compareShifts_trans. }
    rewrite compareShifts_le in H.
    rewrite <- !isPending_iff.
    destruct (PAShifts.isPending a), (PAShifts.isPending b); simpl in H;
      split; intros Hst; try congruence; try exact H.
    destruct Hst as [Hst _]. specialize (Hst eq_refl). discriminate.
Qed.

Lemma sortedShifts_pending_first_then_date_witness :
  let s1 := Shift.mk "s1" "2025-03-12" "p1" "c1" None None confirmed None None in
  let s2 := Shift.mk "s2" "2025-03-11" "p1" "c1" None None pending None None in
  let s3 := Shift.mk "s3" "2025-03-10" "p1" "c1" None None declined None None in
  let s4 := Shift.mk "s4" "2025-03-09" "p1" "c1" None None pending None None in
  PAShifts.sortedShifts [s1; s2; s3; s4] = [] ++ s4 :: [s2] ++ s3 :: [s1] /\
  (Shift.confirmation_status s3 = pending -> Shift.confirmation_status s4 = pending) /\
  ((Shift.confirmation_status s4 = pending <-> Shift.confirmation_status s3 = pending) ->
   String.leb (Shift.date s4) (Shift.date s3) = true).
Proof.
  intros s1 s2 s3 s4.
  split; [reflexivity | ].
  apply (proj2 (sortedShifts_pending_first_then_date [s1; s2; s3; s4])
               [] [s2] [s1] s4 s3).
  reflexivity.
Defined.

(** * Further properties of the modelled code *)

(** ** Identifiers stay unique under the change feed *)

Lemma map_id_replaceShift (new : Shift.t) (l : list Shift.t) :
  map Shift.id (map (replaceShift new) l) = map Shift.id l.
Proof.
  rewrite map_map. apply map_ext. intros x. unfold replaceShift.
  destruct (Shift.id x =? Shift.id new) eqn:E; [ | reflexivity].
  apply String.eqb_eq in E. now symmetry.
Qed.

Lemma filtered_keys_unique {K : Type} (key : Shift.t -> K)
      (keep : Shift.t -> bool) (rows : list Shift.t) :
  NoDup (map key rows) -> NoDup (map key (filter keep rows)).
Proof.
  induction rows as [ | row rows IH]; simpl; intros Huniq.
  - constructor.
  - inversion Huniq as [ | ? ? Hfresh Hrest]; subst.
    destruct (keep row); simpl; [ | now apply IH].
    constructor; [ | now apply IH].
    intros Hin. apply Hfresh.
    apply in_map_iff in Hin as (other & Hkey & Hother).
    apply filter_In in Hother as [Hother _].
    apply in_map_iff. now exists other.
Qed.

Lemma not_some_not_in (i : string) (l : list Shift.t) :
  JS.some (fun s => Shift.id s =? i) l = false -> ~ In i (map Shift.id l).
Proof.
  unfold JS.some. intros H Hin.
  apply in_map_iff in Hin as (x & Hx & Hxin).
  assert (existsb (fun s => Shift.id s =? i) l = true).
  { apply existsb_exists. exists x. split; [exact Hxin | now apply String.eqb_eq]. }
  congruence.
Qed.

Lemma NoDup_push_back (new : Shift.t) (l : list Shift.t) :
  NoDup (map Shift.id l) ->
  JS.some (fun s => Shift.id s =? Shift.id new) l = false ->
  NoDup (map Shift.id (JS.push_back l new)).
Proof.
  intros Hnd Hnone. unfold JS.push_back. rewrite map_app. simpl.
  apply NoDup_app; [exact Hnd | repeat constructor; intros [] | ].
  intros a Ha [<- | []]. revert Ha. now apply not_some_not_in.
Qed.

Lemma grid_shift_handler_keeps_ids_unique (p : Payload Shift.t)
      (prev : list Shift.t) :
  NoDup (map Shift.id prev) ->
  NoDup (map Shift.id (AvailabilityGrid.onShiftsChange p prev)).
Proof.
  intros Hnd. destruct p as [new | new old | old]; simpl.
  - change (fun shift : Shift.t =>
              if Shift.id shift =? Shift.id new then new else shift)
      with (replaceShift new).
    destruct (JS.some _ prev) eqn:E.
    + now rewrite map_id_replaceShift.
    + now apply NoDup_push_back.
  - change (fun shift : Shift.t =>
              if Shift.id shift =? Shift.id new then new else shift)
      with (replaceShift new).
    now rewrite map_id_replaceShift.
  - now apply filtered_keys_unique.
Qed.

(** X1: each of the three change-feed callbacks on the shifts table
    keeps the identifiers of the collection pairwise distinct, whatever
    the event. *)
Theorem shift_handlers_keep_ids_unique (p : Payload Shift.t)
        (prev : list Shift.t) :
  NoDup (map Shift.id prev) ->
  NoDup (map Shift.id (PAShifts.onShiftsChange p prev)) /\
  NoDup (map Shift.id (AvailabilityGrid.onShiftsChange p prev)) /\
  NoDup (map Shift.id (DailyOverview.onShiftsChange p prev)).
Proof.
  intros Hnd. split; [ | split].
  - destruct p as [new | new old | old]; simpl.
    + destruct (JS.truthy (Shift.id new)); simpl; [ | exact Hnd].
      apply (grid_shift_handler_keeps_ids_unique (INSERT new) prev Hnd).
    + destruct (JS.truthy (Shift.id new)); simpl; [ | exact Hnd].
      change (fun shift : Shift.t =>
                if Shift.id shift =? Shift.id new then new else shift)
        with (replaceShift new).
      destruct (JS.some _ prev) eqn:E; simpl.
      * now rewrite map_id_replaceShift.
      * now apply NoDup_push_back.
    + destruct (JS.truthy_opt (old_id old)); simpl; [ | exact Hnd].
      now apply filtered_keys_unique.
  - now apply grid_shift_handler_keeps_ids_unique.
  - now apply (grid_shift_handler_keeps_ids_unique p prev).
Qed.

Lemma shift_handlers_keep_ids_unique_witness :
  let s1 := Shift.mk "s1" "2025-03-10" "p1" "c1" None None pending None None in
  let s2 := Shift.mk "s2" "2025-03-11" "p1" "c1" None None pending None None in
  let s1' := Shift.mk "s1" "2025-03-10" "p1" "c1" None None confirmed None None in
  NoDup (map Shift.id [s1; s2]) /\
  NoDup (map Shift.id (PAShifts.onShiftsChange (INSERT s1') [s1; s2])).
Proof.
  intros s1 s2 s1'.
  assert (H : NoDup (map Shift.id [s1; s2])).
  { simpl. repeat constructor; simpl; intuition discriminate. }
  split; [exact H | ].
  exact (proj1 (shift_handlers_keep_ids_unique (INSERT s1') [s1; s2] H)).
Defined.

(** ** Insert followed by delete *)

Lemma filter_differs_fresh (old : OldRow) (i : string) (l : list Shift.t) :
  old_id old = Some i ->
  countShiftId i l = 0 ->
  filter (fun shift => differs_from_old (Shift.id shift) old) l = l.
Proof.
  intros Hold. unfold countShiftId, differs_from_old. rewrite Hold.
  induction l as [ | x l IH]; simpl; intros H.
  - reflexivity.
  - destruct (Shift.id x =? i); simpl in *; [discriminate | ].
    now rewrite (IH H).
Qed.

Lemma grid_insert_then_delete (new : Shift.t) (old : OldRow)
      (prev : list Shift.t) :
  old_id old = Some (Shift.id new) ->
  countShiftId (Shift.id new) prev = 0 ->
  AvailabilityGrid.onShiftsChange (DELETE old)
    (AvailabilityGrid.onShiftsChange (INSERT new) prev) = prev.
Proof.
  intros Hold Hcount. simpl.
  pose proof (proj2 (some_id_count new prev) Hcount) as Hnone.
  rewrite Hnone. unfold JS.push_back. rewrite filter_app. simpl.
  unfold differs_from_old at 2. rewrite Hold, String.eqb_refl. simpl.
  rewrite app_nil_r. now apply (filter_differs_fresh old (Shift.id new)).
Qed.

(** X2: when the collection does not hold the identifier, an insert
    event followed by the delete event of the same row gives the
    collection back unchanged, on each of the three shift callbacks
    (the PA shift list ignores events whose identifier is empty). *)
Theorem shift_insert_then_delete_round_trip (new : Shift.t) (old : OldRow)
        (prev : list Shift.t) :
  old_id old = Some (Shift.id new) ->
  countShiftId (Shift.id new) prev = 0 ->
  AvailabilityGrid.onShiftsChange (DELETE old)
    (AvailabilityGrid.onShiftsChange (INSERT new) prev) = prev /\
  DailyOverview.onShiftsChange (DELETE old)
    (DailyOverview.onShiftsChange (INSERT new) prev) = prev /\
  PAShifts.onShiftsChange (DELETE old)
    (PAShifts.onShiftsChange (INSERT new) prev) = prev.
Proof.
  intros Hold Hcount.
  pose proof (grid_insert_then_delete new old prev Hold Hcount) as Hgrid.
  split; [exact Hgrid | split; [exact Hgrid | ]].
  unfold PAShifts.onShiftsChange. rewrite Hold. simpl.
  destruct (JS.truthy (Shift.id new)) eqn:T; simpl.
  - exact Hgrid.
  - reflexivity.
Qed.

Lemma shift_insert_then_delete_round_trip_witness :
  let s1 := Shift.mk "s1" "2025-03-10" "p1" "c1" None None pending None None in
  let s2 := Shift.mk "s2" "2025-03-11" "p1" "c1" None None pending None None in
  countShiftId "s2" [s1] = 0 /\
  PAShifts.onShiftsChange (DELETE (mkOld (Some "s2") None))
    (PAShifts.onShiftsChange (INSERT s2) [s1]) = [s1].
Proof.
  intros s1 s2. split; [reflexivity | ].
  apply (shift_insert_then_delete_round_trip s2 (mkOld (Some "s2") None) [s1]);
    reflexivity.
Defined.

(** ** The PA calendar and the month on screen *)

Lemma forallb_push_back {A : Type} (p : A -> bool) (l : list A) (x : A) :
  forallb p l = true -> p x = true -> forallb p (JS.push_back l x) = true.
Proof.
  intros Hl Hx. unfold JS.push_back. rewrite forallb_app. simpl.
  now rewrite Hl, Hx.
Qed.

Lemma forallb_filter {A : Type} (p q : A -> bool) (l : list A) :
  forallb p l = true -> forallb p (filter q l) = true.
Proof.
  induction l as [ | x l IH]; simpl; intros H.
  - reflexivity.
  - apply andb_true_iff in H as [Hx Hl].
    destruct (q x); simpl; [rewrite Hx | ]; now apply IH.
Qed.

(** X3: when the rows of an update carry a date, the calendar's
    change-feed callback keeps every record of the collection inside
    the month on screen. *)
Theorem calendar_feed_keeps_store_in_month
        (monthStartDate monthEndDate : string)
        (p : Payload Availability.t) (prev : list Availability.t) :
  (forall new old, p = UPDATE new old ->
                   JS.truthy (Availability.date new) = true) ->
  forallb (inMonth monthStartDate monthEndDate) prev = true ->
  forallb (inMonth monthStartDate monthEndDate)
          (PACalendar.onAvailabilityChange monthStartDate monthEndDate p prev)
  = true.
Proof.
  intros Hdate Hprev. unfold PACalendar.onAvailabilityChange.
  destruct (PACalendar.inMonthView _ _ _) eqn:V; [ | exact Hprev].
  destruct p as [new | new old | old].
  - apply forallb_push_back; [exact Hprev | ].
    unfold PACalendar.changedDate, JS.or_else, JS.truthy_opt in V.
    destruct (JS.truthy (Availability.date new)); simpl in V; [ | discriminate].
    apply andb_true_iff in V as [V1 V2].
    apply andb_true_iff in V1 as [_ V1].
    unfold inMonth. now rewrite V1, V2.
  - assert (Hnew : inMonth monthStartDate monthEndDate new = true).
    { unfold PACalendar.changedDate, JS.or_else, JS.truthy_opt in V.
      rewrite (Hdate new old eq_refl) in V. simpl in V.
      apply andb_true_iff in V as [V1 V2].
      apply andb_true_iff in V1 as [_ V1].
      unfold inMonth. now rewrite V1, V2. }
    clear V. induction prev as [ | x prev IH]; simpl in *.
    + reflexivity.
    + apply andb_true_iff in Hprev as [Hx Hl].
      rewrite (IH Hl), andb_true_r.
      destruct (Availability.id x =? Availability.id new); assumption.
  - now apply forallb_filter.
Qed.

Lemma calendar_feed_keeps_store_in_month_witness :
  let a := Availability.mk "a1" "u1" "2025-03-10" preferred None None None in
  let b := Availability.mk "a1" "u1" "2025-03-10" available None None None in
  forallb (inMonth "2025-03-01" "2025-03-31") [a] = true /\
  forallb (inMonth "2025-03-01" "2025-03-31")
          (PACalendar.onAvailabilityChange "2025-03-01" "2025-03-31"
             (UPDATE b (mkOld (Some "a1") None)) [a]) = true.
Proof.
  intros a b. split; [reflexivity | ].
  apply calendar_feed_keeps_store_in_month; [ | reflexivity].
  intros new old H. injection H as <- _. reflexivity.
Defined.

(** X4: a delete event reaches the calendar only through the date of
    its old row.  Without one (the feed sends the primary key alone by
    default) the event changes nothing; with a date inside the month
    and an identifier, no record with that identifier is left. *)
Theorem calendar_delete_needs_old_date
        (monthStartDate monthEndDate : string) (old : OldRow)
        (prev : list Availability.t) :
  (JS.truthy_opt (old_date old) = false ->
   PACalendar.onAvailabilityChange monthStartDate monthEndDate (DELETE old) prev
   = prev) /\
  (forall d i,
      old_date old = Some d -> JS.truthy d = true ->
      JS.ge d monthStartDate && JS.le d monthEndDate = true ->
      old_id old = Some i ->
      countAvailabilityId i
        (PACalendar.onAvailabilityChange monthStartDate monthEndDate
           (DELETE old) prev) = 0).
Proof.
  unfold PACalendar.onAvailabilityChange, PACalendar.changedDate, JS.or_else.
  simpl. split.
  - intros H. destruct (old_date old) as [d | ]; simpl in *.
    + now rewrite H.
    + reflexivity.
  - intros d i Hd Ht Hin Hi. rewrite Hd. simpl. rewrite Ht. simpl.
    rewrite Hin.
    unfold countAvailabilityId, differs_from_old. rewrite Hi.
    induction prev as [ | x prev IH]; simpl.
    + reflexivity.
    + destruct (Availability.id x =? i) eqn:E; simpl.
      * exact IH.
      * rewrite E. exact IH.
Qed.

Lemma calendar_delete_needs_old_date_witness :
  let a := Availability.mk "a1" "u1" "2025-03-10" preferred None None None in
  JS.truthy_opt (old_date (mkOld (Some "a1") None)) = false /\
  PACalendar.onAvailabilityChange "2025-03-01" "2025-03-31"
    (DELETE (mkOld (Some "a1") None)) [a] = [a].
Proof.
  intros a. split; [reflexivity | ].
  apply (proj1 (calendar_delete_needs_old_date "2025-03-01" "2025-03-31"
                  (mkOld (Some "a1") None) [a])).
  reflexivity.
Defined.

(** ** The pending badge and the sorted list *)

Lemma filter_length_permutation {A : Type} (p : A -> bool) (l l' : list A) :
  Permutation l l' ->
  List.length (filter p l) = List.length (filter p l').
Proof.
  induction 1 as [ | x l l' _ IH | x y l | l l' l'' _ IH1 _ IH2]; simpl.
  - reflexivity.
  - destruct (p x); simpl; now rewrite IH.
  - destruct (p x), (p y); reflexivity.
  - now rewrite IH1.
Qed.

Lemma after_non_pending (x y : Shift.t) :
  PAShifts.isPending x = false ->
  notAfter PAShifts.compareShifts x y ->
  PAShifts.isPending y = false.
Proof.
  unfold notAfter. rewrite compareShifts_le. intros Hx. rewrite Hx. simpl.
  destruct (PAShifts.isPending y); [discriminate | reflexivity].
Qed.

Lemma sorted_splits_by_pending (l : list Shift.t) :
  StronglySorted (notAfter PAShifts.compareShifts) l ->
  l = filter PAShifts.isPending l
        ++ filter (fun s => negb (PAShifts.isPending s)) l.
Proof.
  induction 1 as [ | x l Hl IH Hx]; simpl.
  - reflexivity.
  - destruct (PAShifts.isPending x) eqn:Px; simpl.
    + now rewrite <- IH.
    + assert (Hnone : forallb (fun s => negb (PAShifts.isPending s)) l = true).
      { apply forallb_forall. intros y Hy.
        rewrite Forall_forall in Hx.
        now rewrite (after_non_pending x y Px (Hx y Hy)). }
      assert (E1 : filter PAShifts.isPending l = []).
      { clear - Hnone. induction l as [ | y l IH]; simpl in *.
        - reflexivity.
        - apply andb_true_iff in Hnone as [Hy Hl].
          destruct (PAShifts.isPending y); [discriminate | now apply IH]. }
      assert (E2 : filter (fun s => negb (PAShifts.isPending s)) l = l).
      { clear - Hnone. induction l as [ | y l IH]; simpl in *.
        - reflexivity.
        - apply andb_true_iff in Hnone as [Hy Hl].
          rewrite Hy. now rewrite (IH Hl). }
      now rewrite E1, E2.
Qed.

Lemma firstn_length_app {A : Type} (a b : list A) :
  firstn (List.length a) (a ++ b) = a /\ skipn (List.length a) (a ++ b) = b.
Proof.
  induction a as [ | x a [IH1 IH2]]; simpl.
  - split; [now destruct b | reflexivity].
  - split; [now rewrite IH1 | exact IH2].
Qed.

Lemma forallb_filter_self {A : Type} (p : A -> bool) (l : list A) :
  forallb p (filter p l) = true.
Proof.
  induction l as [ | x l IH]; simpl.
  - reflexivity.
  - destruct (p x) eqn:E; simpl; [now rewrite E | exact IH].
Qed.

(** X5: the badge count tells where the pending shifts end in the
    sorted list: its first [pendingCount] entries are all pending, the
    entries after them are all confirmed or declined, and sorting does
    not change the count. *)
Theorem pending_shifts_lead_the_sorted_list (shifts : list Shift.t) :
  forallb PAShifts.isPending
          (firstn (PAShifts.pendingCount shifts) (PAShifts.sortedShifts shifts))
  = true /\
  forallb (fun s => negb (PAShifts.isPending s))
          (skipn (PAShifts.pendingCount shifts) (PAShifts.sortedShifts shifts))
  = true /\
  List.length (firstn (PAShifts.pendingCount shifts) (PAShifts.sortedShifts shifts))
  = PAShifts.pendingCount shifts /\
  PAShifts.pendingCount (PAShifts.sortedShifts shifts)
  = PAShifts.pendingCount shifts.
Proof.
  assert (Hcount : PAShifts.pendingCount (PAShifts.sortedShifts shifts)
                   = PAShifts.pendingCount shifts).
  { unfold PAShifts.pendingCount. apply filter_length_permutation.
    apply sort_permutation. }
  assert (Hsplit := sorted_splits_by_pending (PAShifts.sortedShifts shifts)
                      (sort_sorted _ _ compareShifts_total compareShifts_trans shifts)).
  rewrite <- Hcount. unfold PAShifts.pendingCount at 1 2 3.
  set (sorted := PAShifts.sortedShifts shifts) in *.
  destruct (firstn_length_app (filter PAShifts.isPending sorted)
              (filter (fun s => negb (PAShifts.isPending s)) sorted))
    as [Hfirst Hskip].
  rewrite <- Hsplit in Hfirst, Hskip.
  rewrite Hfirst, Hskip.
  repeat split; apply forallb_filter_self.
Qed.

(** ** Clicking a cell of the weekly grid *)

(** X6: with both dialogs closed, a click on a cell opens the assign
    dialog exactly when the cell has no shift and its status is
    available or preferred, and the view dialog exactly when the cell
    has a shift; never both, and the collections are not touched. *)
Theorem cell_click_opens_the_right_dialog
        (pa : User.t) (dateInfo : DateInfo.t) (st : AvailabilityGrid.State) :
  AvailabilityGrid.isAssignDialogOpen st = false ->
  AvailabilityGrid.isViewDialogOpen st = false ->
  let cellShift :=
    AvailabilityGrid.getShiftForCell (User.id pa) (DateInfo.date dateInfo)
                                     (AvailabilityGrid.shifts st) in
  let cellStatus :=
    AvailabilityGrid.getAvailabilityStatus (User.id pa) (DateInfo.date dateInfo)
                                           (AvailabilityGrid.availability st) in
  let st' := AvailabilityGrid.onCellClick pa dateInfo st in
  (AvailabilityGrid.isAssignDialogOpen st' = true <->
   cellShift = None /\
   (cellStatus = Some available \/ cellStatus = Some preferred)) /\
  (AvailabilityGrid.isViewDialogOpen st' = true <-> cellShift <> None) /\
  AvailabilityGrid.isAssignDialogOpen st' && AvailabilityGrid.isViewDialogOpen st'
  = false /\
  AvailabilityGrid.shifts st' = AvailabilityGrid.shifts st /\
  AvailabilityGrid.availability st' = AvailabilityGrid.availability st.
Proof.
  intros Ha Hv cellShift cellStatus st'.
  unfold st', AvailabilityGrid.onCellClick, AvailabilityGrid.isClickable,
    AvailabilityGrid.handleCellClick.
  fold cellShift. fold cellStatus.
  destruct cellShift as [s | ]; simpl.
  - rewrite Ha. repeat split; try discriminate; try tauto.
    intros [H _]. discriminate.
  - destruct cellStatus as [[ | | ] | ]; simpl; rewrite ?Ha, ?Hv;
      repeat split; try discriminate; try tauto; auto;
        try (intros [_ [H | H]]; discriminate).
Qed.

Lemma cell_click_opens_the_right_dialog_witness :
  let pat := User.mk "p1" "pat@example.org" "Pat" PA None None None None None None in
  let day := DateInfo.mk "2025-03-10" "Mon 3/10" in
  let a := Availability.mk "a1" "p1" "2025-03-10" preferred None None None in
  let st := AvailabilityGrid.mkState "2025-03-10" [] [a] (Some "c1") None
              false false false false "" "" "" in
  AvailabilityGrid.isAssignDialogOpen st = false /\
  AvailabilityGrid.isAssignDialogOpen (AvailabilityGrid.onCellClick pat day st) = true.
Proof.
  intros pat day a st. split; [reflexivity | ].
  apply (proj1 (cell_click_opens_the_right_dialog pat day st eq_refl eq_refl)).
  split; [reflexivity | right; reflexivity].
Defined.

(** ** One shift per PA and day *)

Lemma getShiftForCell_none (pa day : string) (l : list Shift.t) :
  AvailabilityGrid.getShiftForCell pa day l = None ->
  ~ In (pa, day) (map cellKey l).
Proof.
  unfold AvailabilityGrid.getShiftForCell, JS.find. intros H Hin.
  apply in_map_iff in Hin as (x & Hx & Hxin).
  apply (find_none _ _ H) in Hxin.
  unfold cellKey in Hx. injection Hx as H1 H2. simpl in Hxin.
  rewrite H1, H2, !String.eqb_refl in Hxin. discriminate.
Qed.

(** X7: when the click has opened the assign dialog and no
    change-feed event is merged between the optimistic append of
    [createShift] and its completion, that is, with [createShift] run
    in one step on the collection the click saw, the action ends,
    whether the write succeeds or fails, with a collection in which no
    two shifts share PA and date, provided this held before and the row
    that comes back is for the selected PA and date.  An insert echo
    merged in between is outside this statement: the row then ends up
    in the collection twice. *)
Theorem assigning_keeps_one_shift_per_cell
        (w : World) (pa : User.t) (dateInfo : DateInfo.t)
        (st : AvailabilityGrid.State) :
  AvailabilityGrid.isAssignDialogOpen st = false ->
  AvailabilityGrid.isViewDialogOpen st = false ->
  AvailabilityGrid.isAssignDialogOpen (AvailabilityGrid.onCellClick pa dateInfo st)
  = true ->
  NoDup (map cellKey (AvailabilityGrid.shifts st)) ->
  (forall data, persistence w = DbRow data ->
                cellKey data = (User.id pa, DateInfo.date dateInfo)) ->
  NoDup (map cellKey
           (AvailabilityGrid.shifts
              (AvailabilityGrid.state
                 (AvailabilityGrid.createShift w
                    (AvailabilityGrid.onCellClick pa dateInfo st))))).
Proof.
  intros Ha Hv Hopen Hnd Hdata.
  destruct (cell_click_opens_the_right_dialog pa dateInfo st Ha Hv)
    as (Hassign & _ & _ & Hshifts & _).
  apply Hassign in Hopen as [Hnone Hstatus].
  pose proof (getShiftForCell_none _ _ _ Hnone) as Hfree.
  set (st' := AvailabilityGrid.onCellClick pa dateInfo st) in *.
  unfold AvailabilityGrid.createShift.
  destruct (AvailabilityGrid.currentUserId st') as [uid | ];
    [ | simpl; now rewrite Hshifts].
  destruct (AvailabilityGrid.selectedCell st') as [cell | ];
    [ | simpl; now rewrite Hshifts].
  destruct (JS.truthy uid); simpl; [ | now rewrite Hshifts].
  unfold JS.push_back. rewrite filter_app. simpl.
  rewrite String.eqb_refl. simpl. rewrite app_nil_r, Hshifts.
  destruct (persistence w) as [error | data] eqn:Hw; simpl.
  - now apply filtered_keys_unique.
  - rewrite map_app. simpl.
    apply NoDup_app; [now apply filtered_keys_unique | repeat constructor; intros [] | ].
    intros k Hk [<- | []].
    rewrite (Hdata data eq_refl) in Hk. apply Hfree.
    apply in_map_iff in Hk as (x & Hx & Hxin).
    apply filter_In in Hxin as [Hxin _].
    apply in_map_iff. now exists x.
Qed.

Lemma assigning_keeps_one_shift_per_cell_witness :
  let pat := User.mk "p1" "pat@example.org" "Pat" PA None None None None None None in
  let day := DateInfo.mk "2025-03-10" "Mon 3/10" in
  let a := Availability.mk "a1" "p1" "2025-03-10" preferred None None None in
  let s0 := Shift.mk "s0" "2025-03-11" "p1" "c1" None None pending None None in
  let data := Shift.mk "s7" "2025-03-10" "p1" "c1" None None pending None None in
  let st := AvailabilityGrid.mkState "2025-03-10" [s0] [a] (Some "c1") None
              false false false false "" "" "" in
  let w := mkWorld (DbRow data) (fun _ => None) EmailOk true 1741600000000%N
                   "2025-03-10T09:46:40.000Z" in
  NoDup (map cellKey [s0]) /\
  NoDup (map cellKey
           (AvailabilityGrid.shifts
              (AvailabilityGrid.state
                 (AvailabilityGrid.createShift w
                    (AvailabilityGrid.onCellClick pat day st))))).
Proof.
  intros pat day a s0 data st w.
  assert (H : NoDup (map cellKey [s0])).
  { simpl. repeat constructor. intros []. }
  split; [exact H | ].
  apply assigning_keeps_one_shift_per_cell; try reflexivity; try exact H.
  intros d Hd. injection Hd as <-. reflexivity.
Defined.

(** ** The echo of a created shift *)

(** [createShift] with a signed-in user, a selected cell and a
    successful write is the optimistic append followed by the
    replacement. *)
Lemma createShift_in_two_writes (w : World) (st : AvailabilityGrid.State)
      (uid : string) (cell : AvailabilityGrid.SelectedCell) (data : Shift.t) :
  AvailabilityGrid.currentUserId st = Some uid ->
  JS.truthy uid = true ->
  AvailabilityGrid.selectedCell st = Some cell ->
  persistence w = DbRow data ->
  AvailabilityGrid.shifts (AvailabilityGrid.state (AvailabilityGrid.createShift w st))
  = AvailabilityGrid.createShiftCommit w data
      (AvailabilityGrid.createShiftApply w uid cell st (AvailabilityGrid.shifts st)).
Proof.
  intros Hu Ht Hc Hw. unfold AvailabilityGrid.createShift.
  rewrite Hu, Hc, Ht, Hw. reflexivity.
Qed.

Lemma commit_after_apply (w : World) (uid : string)
      (cell : AvailabilityGrid.SelectedCell) (st : AvailabilityGrid.State)
      (data : Shift.t) (extra prev : list Shift.t) :
  (forall s, In s prev -> Shift.id s <> AvailabilityGrid.tempId w) ->
  (forall s, In s extra -> Shift.id s <> AvailabilityGrid.tempId w) ->
  AvailabilityGrid.createShiftCommit w data
    (AvailabilityGrid.createShiftApply w uid cell st prev ++ extra)
  = prev ++ extra ++ [data].
Proof.
  intros Hprev Hextra.
  unfold AvailabilityGrid.createShiftCommit, AvailabilityGrid.createShiftApply,
    JS.push_back.
  rewrite !filter_app. simpl. rewrite String.eqb_refl. simpl.
  rewrite !filter_fresh by assumption.
  now rewrite <- !app_assoc.
Qed.

(** X8: when the change feed echoes the created row after
    [createShift] has completed, the echo changes nothing: the
    collection already holds the row once, in place of the temporary
    record. *)
Theorem echo_after_commit_is_absorbed
        (w : World) (st : AvailabilityGrid.State) (uid : string)
        (cell : AvailabilityGrid.SelectedCell) (data : Shift.t) :
  AvailabilityGrid.currentUserId st = Some uid ->
  JS.truthy uid = true ->
  AvailabilityGrid.selectedCell st = Some cell ->
  persistence w = DbRow data ->
  (forall s, In s (AvailabilityGrid.shifts st) ->
             Shift.id s <> AvailabilityGrid.tempId w) ->
  countShiftId (Shift.id data) (AvailabilityGrid.shifts st) = 0 ->
  let committed :=
    AvailabilityGrid.shifts
      (AvailabilityGrid.state (AvailabilityGrid.createShift w st)) in
  committed = AvailabilityGrid.shifts st ++ [data] /\
  AvailabilityGrid.onShiftsChange (INSERT data) committed = committed.
Proof.
  intros Hu Ht Hc Hw Hfresh Hcount committed.
  assert (E : committed = AvailabilityGrid.shifts st ++ [data]).
  { unfold committed.
    rewrite (createShift_in_two_writes w st uid cell data Hu Ht Hc Hw).
    rewrite <- (app_nil_r (AvailabilityGrid.createShiftApply w uid cell st _)).
    rewrite commit_after_apply; [reflexivity | exact Hfresh | intros s []]. }
  split; [exact E | ].
  rewrite E.
  pose proof (proj2 (some_id_count data _) Hcount) as Hnone.
  change (AvailabilityGrid.shifts st ++ [data])
    with (JS.push_back (AvailabilityGrid.shifts st) data).
  unfold AvailabilityGrid.onShiftsChange.
  rewrite some_after_push_back.
  now apply replace_push_back.
Qed.

Lemma echo_after_commit_is_absorbed_witness :
  let s0 := Shift.mk "s0" "2025-03-11" "p1" "c1" None None pending None None in
  let data := Shift.mk "s7" "2025-03-10" "p1" "c1" None None pending None None in
  let cell := AvailabilityGrid.mkCell "p1" "Pat" "2025-03-10" "Mon 3/10"
                                      (Some available) None None in
  let st := AvailabilityGrid.mkState "2025-03-10" [s0] [] (Some "c1")
              (Some cell) true false false false "08:00" "18:00" "" in
  let w := mkWorld (DbRow data) (fun _ => None) EmailOk true 1741600000000%N
                   "2025-03-10T09:46:40.000Z" in
  countShiftId "s7" [s0] = 0 /\
  AvailabilityGrid.onShiftsChange (INSERT data)
    (AvailabilityGrid.shifts
       (AvailabilityGrid.state (AvailabilityGrid.createShift w st)))
  = [s0; data].
Proof.
  intros s0 data cell st w. split; [reflexivity | ].
  assert (Hfresh : forall s, In s (AvailabilityGrid.shifts st) ->
                             Shift.id s <> AvailabilityGrid.tempId w).
  { intros s [<- | []]. discriminate. }
  destruct (echo_after_commit_is_absorbed w st "c1" cell data
              eq_refl eq_refl eq_refl eq_refl Hfresh eq_refl) as [E1 E2].
  rewrite E2. exact E1.
Defined.

(** X9: when the echo arrives while the write is still in flight, the
    callback appends the row next to the temporary record, and the
    completion then adds the row a second time: the collection ends
    with two records of the new identifier. *)
Theorem echo_before_commit_duplicates
        (w : World) (uid : string) (cell : AvailabilityGrid.SelectedCell)
        (st : AvailabilityGrid.State) (data : Shift.t) (prev : list Shift.t) :
  (forall s, In s prev -> Shift.id s <> AvailabilityGrid.tempId w) ->
  Shift.id data <> AvailabilityGrid.tempId w ->
  countShiftId (Shift.id data) prev = 0 ->
  let final :=
    AvailabilityGrid.createShiftCommit w data
      (AvailabilityGrid.onShiftsChange (INSERT data)
         (AvailabilityGrid.createShiftApply w uid cell st prev)) in
  final = prev ++ [data; data] /\
  countShiftId (Shift.id data) final = 2.
Proof.
  intros Hfresh Hdata Hcount final.
  assert (E : final = prev ++ [data; data]).
  { unfold final, AvailabilityGrid.onShiftsChange.
    assert (Hnone : JS.some (fun s => Shift.id s =? Shift.id data)
                      (AvailabilityGrid.createShiftApply w uid cell st prev)
                    = false).
    { unfold AvailabilityGrid.createShiftApply, JS.push_back, JS.some.
      rewrite existsb_app.
      pose proof (proj2 (some_id_count data prev) Hcount) as H.
      unfold JS.some in H. rewrite H.
      cbn [existsb Shift.id orb].
      rewrite orb_false_r. apply String.eqb_neq. congruence. }
    rewrite Hnone. unfold JS.push_back.
    rewrite commit_after_apply; [reflexivity | exact Hfresh | ].
    intros s [<- | []]. exact Hdata. }
  split; [exact E | ].
  rewrite E. unfold countShiftId in *.
  rewrite filter_app, length_app, Hcount. simpl.
  now rewrite String.eqb_refl.
Qed.

Lemma echo_before_commit_duplicates_witness :
  let s0 := Shift.mk "s0" "2025-03-11" "p1" "c1" None None pending None None in
  let data := Shift.mk "s7" "2025-03-10" "p1" "c1" None None pending None None in
  let cell := AvailabilityGrid.mkCell "p1" "Pat" "2025-03-10" "Mon 3/10"
                                      (Some available) None None in
  let st := AvailabilityGrid.mkState "2025-03-10" [s0] [] (Some "c1")
              (Some cell) true false false false "08:00" "18:00" "" in
  let w := mkWorld (DbRow data) (fun _ => None) EmailOk true 1741600000000%N
                   "2025-03-10T09:46:40.000Z" in
  countShiftId "s7" [s0] = 0 /\
  AvailabilityGrid.createShiftCommit w data
    (AvailabilityGrid.onShiftsChange (INSERT data)
       (AvailabilityGrid.createShiftApply w "c1" cell st [s0]))
  = [s0; data; data].
Proof.
  intros s0 data cell st w. split; [reflexivity | ].
  apply (echo_before_commit_duplicates w "c1" cell st data [s0]).
  - intros s [<- | []]. discriminate.
  - discriminate.
  - reflexivity.
Defined.

(** ** Editing the times of a shift *)

Lemma overwrite_twice (i : string) (a b : Shift.t) (l : list Shift.t) :
  Shift.id a = i ->
  map (fun s => if Shift.id s =? i then b else s)
      (map (fun s => if Shift.id s =? i then a else s) l)
  = map (fun s => if Shift.id s =? i then b else s) l.
Proof.
  intros Ha. rewrite map_map. apply map_ext. intros x.
  destruct (Shift.id x =? i) eqn:E.
  - now rewrite Ha, String.eqb_refl.
  - now rewrite E.
Qed.

Lemma overwrite_with_itself (original : Shift.t) (l : list Shift.t) :
  NoDup (map Shift.id l) -> In original l ->
  map (fun s => if Shift.id s =? Shift.id original then original else s) l = l.
Proof.
  intros Hnd Hin. rewrite <- (map_id l) at 2.
  apply map_ext_in. intros x Hx.
  destruct (Shift.id x =? Shift.id original) eqn:E; [ | reflexivity].
  apply String.eqb_eq in E. symmetry. now apply (unique_by_id l).
Qed.

(** X10: [updateShift] never adds or removes a record, whatever the
    persistence answer; when the write fails and the edited shift is
    the collection's own record (identifiers being unique), the
    collection is exactly the one held before the edit. *)
Theorem updateShift_rollback (w : World) (st : AvailabilityGrid.State) :
  List.length
    (AvailabilityGrid.shifts (AvailabilityGrid.state (AvailabilityGrid.updateShift w st)))
  = List.length (AvailabilityGrid.shifts st) /\
  (forall error,
      persistence w = DbError error ->
      NoDup (map Shift.id (AvailabilityGrid.shifts st)) ->
      (forall cell s, AvailabilityGrid.selectedCell st = Some cell ->
                      AvailabilityGrid.shift cell = Some s ->
                      In s (AvailabilityGrid.shifts st)) ->
      AvailabilityGrid.shifts
        (AvailabilityGrid.state (AvailabilityGrid.updateShift w st))
      = AvailabilityGrid.shifts st).
Proof.
  unfold AvailabilityGrid.updateShift. split.
  - destruct (AvailabilityGrid.selectedCell st) as [cell | ]; [ | reflexivity].
    destruct (AvailabilityGrid.shift cell) as [o | ]; [ | reflexivity].
    destruct (persistence w); simpl; now rewrite !length_map.
  - intros error Hw Hnd Hsel.
    destruct (AvailabilityGrid.selectedCell st) as [cell | ]; [ | reflexivity].
    destruct (AvailabilityGrid.shift cell) as [o | ] eqn:Ho; [ | reflexivity].
    rewrite Hw. simpl.
    rewrite overwrite_twice by reflexivity.
    apply overwrite_with_itself; [exact Hnd | ].
    now apply (Hsel cell).
Qed.

Lemma updateShift_rollback_witness :
  let s1 := Shift.mk "s1" "2025-03-10" "p1" "c1" (Some "08:00:00")
                     (Some "18:00:00") confirmed None None in
  let s2 := Shift.mk "s2" "2025-03-11" "p1" "c1" None None pending None None in
  let w := mkWorld (DbError (ErrorObject "write refused")) (fun _ => None)
                   EmailOk true 1741600000000%N "2025-03-10T09:46:40.000Z" in
  let cell := AvailabilityGrid.mkCell "p1" "Pat" "2025-03-10" "Mon 3/10"
                                      (Some available) (Some s1) None in
  let grid := AvailabilityGrid.mkState "2025-03-10" [s1; s2] [] (Some "c1")
                (Some cell) false true true false "09:30" "19:00" "" in
  NoDup (map Shift.id [s1; s2]) /\
  AvailabilityGrid.shifts (AvailabilityGrid.state (AvailabilityGrid.updateShift w grid))
  = [s1; s2].
Proof.
  intros s1 s2 w cell grid.
  assert (Hnd : NoDup (map Shift.id [s1; s2])).
  { simpl. repeat constructor; simpl; intuition discriminate. }
  split; [exact Hnd | ].
  apply (proj2 (updateShift_rollback w grid) (ErrorObject "write refused") eq_refl Hnd).
  intros c s Hc Hs. injection Hc as <-. injection Hs as <-. now left.
Defined.

(** ** Filtering the roster *)

Lemma status_filter_weakens (pa : User.t) (dates : list DateInfo.t)
      (rows : list Availability.t) :
  JS.some
    (fun dateInfo =>
       match AvailabilityGrid.getAvailabilityStatus
               (User.id pa) (DateInfo.date dateInfo) rows with
       | Some preferred => true
       | _ => false
       end) dates = true ->
  JS.some
    (fun dateInfo =>
       match AvailabilityGrid.getAvailabilityStatus
               (User.id pa) (DateInfo.date dateInfo) rows with
       | Some available | Some preferred => true
       | _ => false
       end) dates = true.
Proof.
  unfold JS.some. intros H.
  apply existsb_exists in H as (d & Hd & Hp).
  apply existsb_exists. exists d. split; [exact Hd | ].
  destruct (AvailabilityGrid.getAvailabilityStatus _ _ _) as [[ | | ] | ];
    congruence.
Qed.

(** X11: with no filter ticked the grid lists every PA; ticking both
    filters shows what "preferred only" shows; and every PA shown under
    "preferred only" is also shown under "available only". *)
Theorem roster_filters (pas : list User.t) (dates : list DateInfo.t)
        (rows : list Availability.t) :
  AvailabilityGrid.filteredPAs pas dates rows false false = pas /\
  AvailabilityGrid.filteredPAs pas dates rows true true
  = AvailabilityGrid.filteredPAs pas dates rows false true /\
  (forall pa, In pa (AvailabilityGrid.filteredPAs pas dates rows false true) ->
              In pa (AvailabilityGrid.filteredPAs pas dates rows true false)) /\
  (forall flagA flagP pa,
      In pa (AvailabilityGrid.filteredPAs pas dates rows flagA flagP) -> In pa pas).
Proof.
  unfold AvailabilityGrid.filteredPAs. repeat split.
  - simpl. induction pas as [ | x l IH]; simpl; [reflexivity | now rewrite IH].
  - intros pa H. apply filter_In in H as [Hin Hp]. simpl in Hp.
    apply filter_In. split; [exact Hin | ]. simpl.
    now apply status_filter_weakens.
  - intros flagA flagP pa H. now apply filter_In in H as [Hin _].
Qed.

(** ** A merged shift shows in its cell *)

Lemma find_after_replace (p : Shift.t -> bool) (new : Shift.t) (l : list Shift.t) :
  p new = true ->
  JS.find p l = None ->
  JS.some (fun s => Shift.id s =? Shift.id new) l = true ->
  JS.find p (map (replaceShift new) l) = Some new.
Proof.
  unfold JS.find, JS.some, replaceShift. intros Hnew.
  induction l as [ | x l IH]; simpl; intros Hnone Hsome.
  - discriminate.
  - destruct (p x) eqn:Px; [discriminate | ].
    destruct (Shift.id x =? Shift.id new) eqn:E; simpl in *.
    + now rewrite Hnew.
    + rewrite Px. now apply IH.
Qed.

Lemma find_after_push_back (p : Shift.t -> bool) (new : Shift.t) (l : list Shift.t) :
  p new = true ->
  JS.find p l = None ->
  JS.find p (JS.push_back l new) = Some new.
Proof.
  unfold JS.find, JS.push_back. intros Hnew.
  induction l as [ | x l IH]; simpl; intros Hnone.
  - now rewrite Hnew.
  - destruct (p x); [discriminate | now apply IH].
Qed.

(** X12: when a cell of the grid holds no shift, the insert event of a
    shift for that PA and date makes the cell show that shift, and the
    cell's label turns to "Assigned" whatever the availability status. *)
Theorem inserted_shift_shows_in_its_cell
        (new : Shift.t) (prev : list Shift.t) (status : AvailabilityStatus) :
  AvailabilityGrid.getShiftForCell
    (Shift.assigned_pa_id new) (Shift.date new) prev = None ->
  let merged := AvailabilityGrid.onShiftsChange (INSERT new) prev in
  AvailabilityGrid.getShiftForCell
    (Shift.assigned_pa_id new) (Shift.date new) merged = Some new /\
  AvailabilityGrid.getStatusLabel status
    (match AvailabilityGrid.getShiftForCell
             (Shift.assigned_pa_id new) (Shift.date new) merged with
     | Some _ => true
     | None => false
     end) = "Assigned".
Proof.
  intros Hnone merged.
  assert (E : AvailabilityGrid.getShiftForCell
                (Shift.assigned_pa_id new) (Shift.date new) merged = Some new).
  { unfold merged, AvailabilityGrid.getShiftForCell, AvailabilityGrid.onShiftsChange
      in *.
    change (fun shift : Shift.t =>
              if Shift.id shift =? Shift.id new then new else shift)
      with (replaceShift new).
    destruct (JS.some _ prev) eqn:S.
    - apply find_after_replace; [ | exact Hnone | exact S].
      now rewrite !String.eqb_refl.
    - apply find_after_push_back; [ | exact Hnone].
      now rewrite !String.eqb_refl. }
  split; [exact E | ]. now rewrite E.
Qed.

Lemma inserted_shift_shows_in_its_cell_witness :
  let s0 := Shift.mk "s0" "2025-03-11" "p1" "c1" None None pending None None in
  let s7 := Shift.mk "s7" "2025-03-10" "p1" "c1" None None pending None None in
  AvailabilityGrid.getShiftForCell "p1" "2025-03-10" [s0] = None /\
  AvailabilityGrid.getShiftForCell "p1" "2025-03-10"
    (AvailabilityGrid.onShiftsChange (INSERT s7) [s0]) = Some s7.
Proof.
  intros s0 s7. split; [reflexivity | ].
  apply (inserted_shift_shows_in_its_cell s7 [s0] None). reflexivity.
Defined.

(** ** Month navigation of the PA calendar *)

Lemma canGoNext_spec (today selected : PACalendar.Month) :
  validMonth today -> validMonth selected ->
  PACalendar.canGoNext today selected = true <->
  (monthNumber selected < monthNumber today + 3)%Z.
Proof.
  unfold validMonth, monthNumber, PACalendar.canGoNext.
  destruct today as [ty tm], selected as [sy sm]. cbn [PACalendar.year PACalendar.month]. intros Ht Hs.
  rewrite Z.rem_mod_nonneg by lia.
  pose proof (Z.div_mod (tm + 3) 12 ltac:(lia)) as Hdm.
  pose proof (Z.mod_pos_bound (tm + 3) 12 ltac:(lia)) as Hm.
  rewrite orb_true_iff, andb_true_iff, !Z.ltb_lt, Z.eqb_eq.
  lia.
Qed.

Lemma canGoPrevious_spec (today selected : PACalendar.Month) :
  validMonth today -> validMonth selected ->
  PACalendar.canGoPrevious today selected = true <->
  (monthNumber today < monthNumber selected)%Z.
Proof.
  unfold validMonth, monthNumber, PACalendar.canGoPrevious.
  destruct today as [ty tm], selected as [sy sm]. cbn [PACalendar.year PACalendar.month]. intros Ht Hs.
  rewrite orb_true_iff, andb_true_iff, !Z.ltb_lt, Z.eqb_eq.
  lia.
Qed.

Lemma goToPreviousMonth_spec (selected : PACalendar.Month) :
  validMonth selected ->
  validMonth (PACalendar.goToPreviousMonth selected) /\
  monthNumber (PACalendar.goToPreviousMonth selected)
  = (monthNumber selected - 1)%Z.
Proof.
  unfold validMonth, monthNumber, PACalendar.goToPreviousMonth.
  destruct selected as [sy sm]. cbn [PACalendar.year PACalendar.month]. intros Hs.
  destruct (sm =? 0)%Z eqn:E; cbn [PACalendar.year PACalendar.month].
  - apply Z.eqb_eq in E. lia.
  - apply Z.eqb_neq in E. lia.
Qed.

(** X13: the calendar never leaves the four months from today's on.
    From a month in that range, the next-month action moves one month
    forward until the third month ahead is reached and then stays; the
    previous-month button moves one month back until today's month is
    reached and then stays; the month index remains between 0 and 11. *)
Theorem month_navigation_stays_in_range (today selected : PACalendar.Month) :
  validMonth today -> validMonth selected ->
  (monthNumber today <= monthNumber selected <= monthNumber today + 3)%Z ->
  let next := PACalendar.goToNextMonth today selected in
  let back := PACalendar.clickPrevious today selected in
  validMonth next /\ validMonth back /\
  (monthNumber today <= monthNumber next <= monthNumber today + 3)%Z /\
  (monthNumber today <= monthNumber back <= monthNumber today + 3)%Z /\
  monthNumber next
  = (if (monthNumber selected <? monthNumber today + 3)%Z
     then monthNumber selected + 1 else monthNumber selected)%Z /\
  monthNumber back
  = (if (monthNumber today <? monthNumber selected)%Z
     then monthNumber selected - 1 else monthNumber selected)%Z.
Proof.
  intros Ht Hs Hrange next back.
  assert (Hnext : validMonth next /\
                  monthNumber next
                  = (if (monthNumber selected <? monthNumber today + 3)%Z
                     then monthNumber selected + 1 else monthNumber selected)%Z).
  { unfold next, PACalendar.goToNextMonth.
    pose proof (canGoNext_spec today selected Ht Hs) as Hspec.
    destruct (PACalendar.canGoNext today selected).
    - assert (H : (monthNumber selected < monthNumber today + 3)%Z)
        by now apply Hspec.
      apply Z.ltb_lt in H. rewrite H.
      unfold validMonth, monthNumber in *.
      destruct selected as [sy sm]. cbn [PACalendar.year PACalendar.month] in *.
      destruct (sm =? 11)%Z eqn:E; cbn [PACalendar.year PACalendar.month].
      + apply Z.eqb_eq in E. lia.
      + apply Z.eqb_neq in E. lia.
    - destruct (monthNumber selected <? monthNumber today + 3)%Z eqn:E.
      + apply Z.ltb_lt in E. apply Hspec in E. discriminate.
      + split; [exact Hs | reflexivity]. }
  assert (Hback : validMonth back /\
                  monthNumber back
                  = (if (monthNumber today <? monthNumber selected)%Z
                     then monthNumber selected - 1 else monthNumber selected)%Z).
  { unfold back, PACalendar.clickPrevious.
    pose proof (canGoPrevious_spec today selected Ht Hs) as Hspec.
    destruct (PACalendar.canGoPrevious today selected).
    - assert (H : (monthNumber today < monthNumber selected)%Z)
        by now apply Hspec.
      apply Z.ltb_lt in H. rewrite H.
      now apply goToPreviousMonth_spec.
    - destruct (monthNumber today <? monthNumber selected)%Z eqn:E.
      + apply Z.ltb_lt in E. apply Hspec in E. discriminate.
      + split; [exact Hs | reflexivity]. }
  destruct Hnext as [Hn1 Hn2], Hback as [Hb1 Hb2].
  split; [exact Hn1 | ]. split; [exact Hb1 | ].
  split; [ | split; [ | split; [exact Hn2 | exact Hb2]]].
  - rewrite Hn2.
    destruct (monthNumber selected <? monthNumber today + 3)%Z eqn:E;
      [apply Z.ltb_lt in E | ]; lia.
  - rewrite Hb2.
    destruct (monthNumber today <? monthNumber selected)%Z eqn:E;
      [apply Z.ltb_lt in E | ]; lia.
Qed.

Lemma month_navigation_stays_in_range_witness :
  let today := PACalendar.mkMonth 2025 10 in
  let selected := PACalendar.mkMonth 2025 11 in
  validMonth today /\ validMonth selected /\
  PACalendar.goToNextMonth today selected = PACalendar.mkMonth 2026 0 /\
  monthNumber (PACalendar.goToNextMonth today selected)
  = (if (monthNumber selected <? monthNumber today + 3)%Z
     then monthNumber selected + 1 else monthNumber selected)%Z.
Proof.
  intros today selected.
  assert (Ht : validMonth today) by (unfold validMonth; simpl; lia).
  assert (Hs : validMonth selected) by (unfold validMonth; simpl; lia).
  split; [exact Ht | split; [exact Hs | split; [reflexivity | ]]].
  apply (month_navigation_stays_in_range today selected Ht Hs).
  unfold monthNumber. simpl. lia.
Defined.

(** ** Clicking a day of the PA calendar *)

Lemma find_all_false {A : Type} (p : A -> bool) (l : list A) :
  (forall x, In x l -> p x = false) -> JS.find p l = None.
Proof.
  unfold JS.find. induction l as [ | x l IH]; simpl; intros H.
  - reflexivity.
  - rewrite (H x (or_introl eq_refl)). apply IH. intros y Hy. apply H. now right.
Qed.

Lemma find_app_none {A : Type} (p : A -> bool) (l l' : list A) :
  JS.find p l = None -> JS.find p (l ++ l') = JS.find p l'.
Proof.
  unfold JS.find. induction l as [ | x l IH]; simpl; intros H.
  - reflexivity.
  - destruct (p x); [discriminate | now apply IH].
Qed.

Lemma find_filter_none {A : Type} (p q : A -> bool) (l : list A) :
  JS.find p l = None -> JS.find p (filter q l) = None.
Proof.
  intros H. apply find_all_false. intros x Hx.
  apply filter_In in Hx as [Hx _].
  exact (find_none _ _ H x Hx).
Qed.

Lemma find_map_same_test {A : Type} (p : A -> bool) (f : A -> A) (l : list A) :
  (forall x, p (f x) = p x) ->
  JS.find p (map f l) = option_map f (JS.find p l).
Proof.
  unfold JS.find. intros H. induction l as [ | x l IH]; simpl.
  - reflexivity.
  - rewrite H. destruct (p x); [reflexivity | exact IH].
Qed.

Lemma unique_by_date (l : list Availability.t) (x y : Availability.t) :
  NoDup (map Availability.date l) ->
  In x l -> In y l -> Availability.date x = Availability.date y -> x = y.
Proof.
  induction l as [ | z l IH]; simpl; intros Hnd Hx Hy Hd.
  - contradiction.
  - inversion Hnd as [ | ? ? Hnotin Hnd']; subst.
    destruct Hx as [-> | Hx], Hy as [-> | Hy].
    + reflexivity.
    + exfalso. apply Hnotin. rewrite Hd. now apply in_map.
    + exfalso. apply Hnotin. rewrite <- Hd. now apply in_map.
    + now apply IH.
Qed.

(** The optimistic write alone already moves the day one step along
    the ring. *)
Lemma optimistic_click_advances (w : CalendarClick.ClickWorld)
      (userId day : string) (prev : list Availability.t) :
  NoDup (map Availability.date prev) ->
  PACalendar.statusOf
    (PACalendar.getAvailabilityForDate day
       (CalendarClick.optimisticClick w userId day prev))
  = PACalendar.cycleStatus
      (PACalendar.statusOf (PACalendar.getAvailabilityForDate day prev)).
Proof.
  intros Hnd. unfold CalendarClick.optimisticClick, PACalendar.getAvailabilityForDate.
  destruct (JS.find _ prev) as [cur | ] eqn:F.
  - pose proof F as F'. unfold JS.find in F'.
    apply find_some in F' as [Hin Hday]. apply String.eqb_eq in Hday.
    destruct (Availability.status cur) eqn:S; simpl; rewrite S; simpl.
    + rewrite find_map_same_test.
      * rewrite F. simpl. now rewrite String.eqb_refl.
      * intros x. now destruct (Availability.id x =? Availability.id cur).
    + rewrite find_map_same_test.
      * rewrite F. simpl. now rewrite String.eqb_refl.
      * intros x. now destruct (Availability.id x =? Availability.id cur).
    + rewrite find_all_false; [reflexivity | ].
      intros x Hx. apply filter_In in Hx as [Hx Hid].
      destruct (Availability.date x =? day) eqn:E; [ | reflexivity].
      apply String.eqb_eq in E.
      assert (x = cur) by (apply (unique_by_date prev); congruence).
      subst x. now rewrite String.eqb_refl in Hid.
  - simpl. unfold JS.push_back. rewrite find_app_none by exact F.
    unfold JS.find. simpl. now rewrite String.eqb_refl.
Qed.

(** X14: a click whose write succeeds moves the clicked day one step
    along the ring unset, unavailable, available, preferred, unset, as
    read back from the collection, and reports success.  The collection
    holds at most one record per date, and a row inserted for an unset
    day comes back with that date and the status sent. *)
Theorem click_advances_the_day
        (w : CalendarClick.ClickWorld) (userId day : string)
        (st : CalendarClick.State) (data : Availability.t) :
  CalendarClick.write w = CalendarClick.WriteOk data ->
  NoDup (map Availability.date (CalendarClick.availability st)) ->
  (PACalendar.getAvailabilityForDate day (CalendarClick.availability st) = None ->
   Availability.date data = day /\ Availability.status data = unavailable) ->
  let before :=
    PACalendar.statusOf
      (PACalendar.getAvailabilityForDate day (CalendarClick.availability st)) in
  let r := CalendarClick.handleDateClick w userId day st in
  PACalendar.statusOf
    (PACalendar.getAvailabilityForDate day
       (CalendarClick.availability (CalendarClick.state r)))
  = PACalendar.cycleStatus before /\
  CalendarClick.toasts r
  = [toast_success ("Availability set to "
                      ++ PACalendar.getStatusLabel (PACalendar.cycleStatus before))%string].
Proof.
  intros Hw Hnd Hdata before r.
  unfold r, CalendarClick.handleDateClick. rewrite Hw.
  split; [ | reflexivity].
  cbn [CalendarClick.state CalendarClick.availability].
  pose proof (optimistic_click_advances w userId day _ Hnd) as Hopt.
  fold before in Hopt.
  destruct (PACalendar.getAvailabilityForDate day (CalendarClick.availability st))
    as [cur | ] eqn:F.
  - destruct (PACalendar.cycleStatus (PACalendar.statusOf (Some cur))); exact Hopt.
  - destruct (Hdata eq_refl) as [Hd Hs].
    unfold before. cbn [PACalendar.statusOf PACalendar.cycleStatus].
    unfold CalendarClick.optimisticClick. rewrite F.
    cbn [PACalendar.statusOf PACalendar.cycleStatus].
    unfold PACalendar.getAvailabilityForDate in *.
    rewrite find_app_none.
    + unfold JS.find. simpl. rewrite Hd, String.eqb_refl. simpl. now rewrite Hs.
    + (* the temporary record matches the date; the filter drops it *)
      unfold JS.push_back. rewrite filter_app.
      cbn [filter Availability.id]. rewrite String.eqb_refl.
      cbn [negb]. rewrite app_nil_r.
      now apply find_filter_none.
Qed.

Lemma click_advances_the_day_witness :
  let a := Availability.mk "a1" "u1" "2025-03-10" preferred None None None in
  let b := Availability.mk "a2" "u1" "2025-03-11" available None None None in
  let w := CalendarClick.mkClickWorld (CalendarClick.WriteOk a)
             CalendarClick.RefetchNothing 1741600000000%N "0.25"
             "2025-03-10T09:46:40.000Z" in
  let st := CalendarClick.mkState [a; b] false in
  NoDup (map Availability.date [a; b]) /\
  PACalendar.statusOf
    (PACalendar.getAvailabilityForDate "2025-03-10"
       (CalendarClick.availability
          (CalendarClick.state (CalendarClick.handleDateClick w "u1" "2025-03-10" st))))
  = None.
Proof.
  intros a b w st.
  assert (Hnd : NoDup (map Availability.date [a; b])).
  { simpl. repeat constructor; simpl; intuition discriminate. }
  split; [exact Hnd | ].
  apply (click_advances_the_day w "u1" "2025-03-10" st a eq_refl Hnd).
  discriminate.
Defined.

(** X15: when the write of a click fails, the collection is repaired
    only by the re-fetch.  If the re-fetch yields a list of rows, that
    list, even an empty one, becomes the collection.  If it yields no
    data or throws, the collection stays the optimistic one; with at
    most one record per date the clicked day then reads the next status
    of the ring although nothing was saved. *)
Theorem failed_click_depends_on_refetch
        (w : CalendarClick.ClickWorld) (userId day : string)
        (st : CalendarClick.State) (error : Thrown) :
  CalendarClick.write w = CalendarClick.WriteError error ->
  let r := CalendarClick.handleDateClick w userId day st in
  (forall rows,
      CalendarClick.refetch w = CalendarClick.RefetchData rows ->
      CalendarClick.availability (CalendarClick.state r) = rows) /\
  ((forall rows, CalendarClick.refetch w <> CalendarClick.RefetchData rows) ->
   CalendarClick.availability (CalendarClick.state r)
   = CalendarClick.optimisticClick w userId day (CalendarClick.availability st)) /\
  (NoDup (map Availability.date (CalendarClick.availability st)) ->
   (forall rows, CalendarClick.refetch w <> CalendarClick.RefetchData rows) ->
   PACalendar.statusOf
     (PACalendar.getAvailabilityForDate day
        (CalendarClick.availability (CalendarClick.state r)))
   = PACalendar.cycleStatus
       (PACalendar.statusOf
          (PACalendar.getAvailabilityForDate day (CalendarClick.availability st)))).
Proof.
  intros Hw r.
  assert (Hstay : (forall rows,
                      CalendarClick.refetch w <> CalendarClick.RefetchData rows) ->
                  CalendarClick.availability (CalendarClick.state r)
                  = CalendarClick.optimisticClick w userId day
                      (CalendarClick.availability st)).
  { intros Hno. unfold r, CalendarClick.handleDateClick. rewrite Hw.
    destruct (PACalendar.getAvailabilityForDate day (CalendarClick.availability st))
      as [cur | ];
      [destruct (PACalendar.cycleStatus (PACalendar.statusOf (Some cur))) | ];
      cbn [PACalendar.statusOf PACalendar.cycleStatus];
      destruct (CalendarClick.refetch w) as [rows | | ];
      try reflexivity; now destruct (Hno rows). }
  split; [ | split; [exact Hstay | ]].
  - intros rows Hrows. unfold r, CalendarClick.handleDateClick.
    rewrite Hw, Hrows.
    destruct (PACalendar.getAvailabilityForDate day (CalendarClick.availability st))
      as [cur | ] eqn:F.
    + now destruct (PACalendar.cycleStatus (PACalendar.statusOf (Some cur))).
    + reflexivity.
  - intros Hnd Hno. rewrite (Hstay Hno).
    now apply optimistic_click_advances.
Qed.

Lemma failed_click_depends_on_refetch_witness :
  let w := CalendarClick.mkClickWorld
             (CalendarClick.WriteError (ErrorObject "insert refused"))
             CalendarClick.RefetchNothing 1741600000000%N "0.25"
             "2025-03-10T09:46:40.000Z" in
  let st := CalendarClick.mkState [] false in
  NoDup (map Availability.date (CalendarClick.availability st)) /\
  PACalendar.statusOf
    (PACalendar.getAvailabilityForDate "2025-03-10"
       (CalendarClick.availability
          (CalendarClick.state (CalendarClick.handleDateClick w "u1" "2025-03-10" st))))
  = Some unavailable.
Proof.
  intros w st.
  assert (Hnd : NoDup (map Availability.date (CalendarClick.availability st)))
    by constructor.
  split; [exact Hnd | ].
  apply (proj2 (proj2 (failed_click_depends_on_refetch w "u1" "2025-03-10" st
                         (ErrorObject "insert refused") eq_refl)) Hnd).
  intros rows. discriminate.
Defined.

(** ** The daily overview: counts and rows *)

Lemma status_partition (l : list Shift.t) :
  List.length l
  = List.length (filter (DailyOverview.hasStatus confirmed) l)
    + List.length (filter (DailyOverview.hasStatus pending) l)
    + List.length (filter (DailyOverview.hasStatus declined) l).
Proof.
  unfold DailyOverview.hasStatus.
  induction l as [ | x l IH]; simpl.
  - reflexivity.
  - destruct (Shift.confirmation_status x); simpl; lia.
Qed.

Lemma rows_bounded (pas : list User.t) (q : Shift.t -> bool) (l : list Shift.t) :
  List.length (filter (fun item => q (fst item)) (DailyOverview.shiftsWithPAs pas l))
  <= List.length (filter q l) /\
  ((forall s, In s l ->
              JS.some (fun p => User.id p =? Shift.assigned_pa_id s) pas = true) ->
   List.length (filter (fun item => q (fst item)) (DailyOverview.shiftsWithPAs pas l))
   = List.length (filter q l)).
Proof.
  unfold DailyOverview.shiftsWithPAs.
  induction l as [ | x l [IH1 IH2]]; simpl.
  - split; [lia | reflexivity].
  - destruct (JS.find _ pas) as [pa | ] eqn:F; simpl.
    + destruct (q x); simpl; split; try lia.
      * intros H. rewrite IH2; [reflexivity | ]. intros s Hs. apply H. now right.
      * intros H. apply IH2. intros s Hs. apply H. now right.
    + split.
      * destruct (q x); simpl; lia.
      * intros H. exfalso.
        specialize (H x (or_introl eq_refl)).
        unfold JS.some in H. apply existsb_exists in H as (p & Hp & Hid).
        unfold JS.find in F. pose proof (find_none _ _ F p Hp) as Hn.
        simpl in Hn. congruence.
Qed.

Lemma filter_true_all {A : Type} (l : list A) :
  filter (fun _ => true) l = l.
Proof.
  induction l as [ | x l IH]; simpl; [reflexivity | now rewrite IH].
Qed.

(** X16: in the daily overview the total is the sum of the confirmed,
    pending and declined counts; the rows listed under each filter are
    never more than the matching count, a shift whose PA is missing
    from the roster being counted but not listed; and with every PA in
    the roster rows and counts agree. *)
Theorem overview_counts_and_rows
        (pas : list User.t) (shifts : list Shift.t) (selectedDate : string) :
  let dayShifts := DailyOverview.shiftsForDate shifts selectedDate in
  let rows := DailyOverview.shiftsWithPAs pas dayShifts in
  let s := DailyOverview.summary dayShifts in
  DailyOverview.total s
  = DailyOverview.confirmedCount s + DailyOverview.pendingCount s
    + DailyOverview.declinedCount s /\
  List.length (DailyOverview.filteredShifts DailyOverview.FilterAll rows)
  <= DailyOverview.total s /\
  List.length (DailyOverview.filteredShifts DailyOverview.FilterConfirmed rows)
  <= DailyOverview.confirmedCount s /\
  List.length (DailyOverview.filteredShifts DailyOverview.FilterPending rows)
  <= DailyOverview.pendingCount s /\
  ((forall x, In x dayShifts ->
              JS.some (fun p => User.id p =? Shift.assigned_pa_id x) pas = true) ->
   List.length (DailyOverview.filteredShifts DailyOverview.FilterAll rows)
   = DailyOverview.total s /\
   List.length (DailyOverview.filteredShifts DailyOverview.FilterConfirmed rows)
   = DailyOverview.confirmedCount s /\
   List.length (DailyOverview.filteredShifts DailyOverview.FilterPending rows)
   = DailyOverview.pendingCount s).
Proof.
  intros dayShifts rows s. unfold s, rows. simpl.
  pose proof (rows_bounded pas (fun _ => true) dayShifts) as [Ha1 Ha2].
  rewrite !filter_true_all in Ha1, Ha2.
  pose proof (rows_bounded pas (DailyOverview.hasStatus confirmed) dayShifts)
    as [Hc1 Hc2].
  pose proof (rows_bounded pas (DailyOverview.hasStatus pending) dayShifts)
    as [Hp1 Hp2].
  split; [apply status_partition | ].
  repeat split; auto.
Qed.

Lemma overview_counts_and_rows_witness :
  let pat := User.mk "p1" "pat@example.org" "Pat" PA None None None None None None in
  let s1 := Shift.mk "s1" "2025-03-10" "p1" "c1" None None confirmed None None in
  let s2 := Shift.mk "s2" "2025-03-10" "p9" "c1" None None pending None None in
  let dayShifts := DailyOverview.shiftsForDate [s1; s2] "2025-03-10" in
  List.length
    (DailyOverview.filteredShifts DailyOverview.FilterAll
       (DailyOverview.shiftsWithPAs [pat] dayShifts)) = 1 /\
  DailyOverview.total (DailyOverview.summary dayShifts) = 2 /\
  List.length
    (DailyOverview.filteredShifts DailyOverview.FilterAll
       (DailyOverview.shiftsWithPAs [pat] (DailyOverview.shiftsForDate [s1] "2025-03-10")))
  = DailyOverview.total
      (DailyOverview.summary (DailyOverview.shiftsForDate [s1] "2025-03-10")).
Proof.
  intros pat s1 s2 dayShifts.
  split; [reflexivity | split; [reflexivity | ]].
  apply (overview_counts_and_rows [pat] [s1] "2025-03-10").
  intros x [<- | []]. reflexivity.
Defined.

(** ** Two ways of preparing a time for the database *)

(** X17: the daily overview's time preparation agrees with the grid's
    [formatTimeForDB] on every input the grid accepts; an input the
    grid turns into null (a non-empty text without exactly one or two
    colons) is sent unchanged by the overview. *)
Theorem overview_time_agrees_with_grid (t : string) :
  (forall r, AvailabilityGrid.formatTimeForDB (Some t) = Some r ->
             DailyOverview.timeFormatted t = Some r) /\
  (JS.truthy t = true ->
   AvailabilityGrid.formatTimeForDB (Some t) = None ->
   DailyOverview.timeFormatted t = Some t) /\
  (JS.truthy t = false ->
   AvailabilityGrid.formatTimeForDB (Some t) = None /\
   DailyOverview.timeFormatted t = None).
Proof.
  unfold AvailabilityGrid.formatTimeForDB, DailyOverview.timeFormatted.
  destruct (JS.truthy t); simpl.
  - destruct (JS.includes ":" t); simpl.
    + destruct (List.length (JS.split ":" t)) as [ | [ | [ | [ | n]]]]; simpl;
        repeat split; intros; try discriminate; try congruence.
    + repeat split; intros; try discriminate; try congruence.
  - repeat split; intros; try discriminate; try congruence.
Qed.

Lemma overview_time_agrees_with_grid_witness :
  AvailabilityGrid.formatTimeForDB (Some "08:00") = Some "08:00:00" /\
  DailyOverview.timeFormatted "08:00" = Some "08:00:00".
Proof.
  split; [reflexivity | ].
  apply (proj1 (overview_time_agrees_with_grid "08:00")). reflexivity.
Defined.

(** ** From the database to the time input and back *)

(** X18: a stored time [h:m:s] is shown in the edit dialog as [h:m],
    and saving the dialog writes [h:m:00]: the round trip through the
    dialog is the identity exactly on times whose seconds are 00, and a
    missing time stays missing. *)
Theorem stored_time_through_the_dialog (h m s : string) :
  JS.includes ":" h = false ->
  JS.includes ":" m = false ->
  JS.includes ":" s = false ->
  let stored := (h ++ ":" ++ m ++ ":" ++ s)%string in
  AvailabilityGrid.timeInputValue (Some stored) = (h ++ ":" ++ m)%string /\
  AvailabilityGrid.formatTimeForDB
    (Some (AvailabilityGrid.timeInputValue (Some stored)))
  = Some (h ++ ":" ++ m ++ ":00")%string /\
  (s = "00" ->
   AvailabilityGrid.formatTimeForDB
     (Some (AvailabilityGrid.timeInputValue (Some stored))) = Some stored) /\
  AvailabilityGrid.formatTimeForDB
    (Some (AvailabilityGrid.timeInputValue None)) = None.
Proof.
  intros Hh Hm Hs stored.
  assert (Hin : AvailabilityGrid.timeInputValue (Some stored) = (h ++ ":" ++ m)%string).
  { unfold AvailabilityGrid.timeInputValue, stored.
    assert (Hne : JS.truthy (h ++ ":" ++ m ++ ":" ++ s)%string = true)
      by (destruct h; reflexivity).
    rewrite Hne.
    change (h ++ ":" ++ m ++ ":" ++ s)%string
      with (h ++ String ":" (m ++ String ":" s))%string.
    rewrite (split_at_separator _ _ _ Hh), (split_at_separator _ _ _ Hm),
      (split_without_separator _ _ Hs).
    reflexivity. }
  assert (Hdb : AvailabilityGrid.formatTimeForDB (Some (h ++ ":" ++ m)%string)
                = Some (h ++ ":" ++ m ++ ":00")%string).
  { rewrite (proj1 (time_round_trip_parts h m Hh Hm)).
    now rewrite !append_assoc. }
  rewrite Hin. repeat split.
  - exact Hdb.
  - intros ->. exact Hdb.
Qed.

Lemma stored_time_through_the_dialog_witness :
  JS.includes ":" "08" = false /\
  AvailabilityGrid.formatTimeForDB
    (Some (AvailabilityGrid.timeInputValue (Some "08:30:45"))) = Some "08:30:00".
Proof.
  split; [reflexivity | ].
  apply (stored_time_through_the_dialog "08" "30" "45"); reflexivity.
Defined.

(** ** Route protection *)

Lemma authenticated_has_role (s : Middleware.Session) :
  Middleware.isAuthenticated s = true ->
  exists r, Middleware.userRole s = Some r.
Proof.
  unfold Middleware.isAuthenticated.
  destruct (Middleware.authUser s); [ | discriminate].
  destruct (Middleware.userRole s) as [r | ]; [ | discriminate].
  intros _. now exists r.
Qed.

Lemma prefix_three (a b c : ascii) (p : string) :
  String.prefix (String a (String b (String c EmptyString))) p = true ->
  exists rest, p = String a (String b (String c rest)).
Proof.
  destruct p as [ | x [ | y [ | z rest]]]; simpl;
    try discriminate;
    try (destruct (ascii_dec a x); discriminate);
    try (destruct (ascii_dec a x); [destruct (ascii_dec b y) | ]; discriminate).
  destruct (ascii_dec a x); [ | discriminate].
  destruct (ascii_dec b y); [ | discriminate].
  destruct (ascii_dec c z); [ | discriminate].
  subst. intros _. now exists rest.
Qed.

(** X19: the middleware sends nobody in circles and keeps the two
    dashboards apart.  Whenever it redirects, the same caller is let
    through at the target; and it lets a request through under [/pa]
    only for a signed-in PA and under [/pc] only for a signed-in PC. *)
Theorem middleware_redirects_settle (s : Middleware.Session) (pathname : string) :
  (forall target,
      Middleware.middleware s pathname = Middleware.redirect target ->
      Middleware.middleware s target = Middleware.next) /\
  (Middleware.middleware s pathname = Middleware.next ->
   (String.prefix "/pa" pathname = true -> Middleware.userRole s = Some PA) /\
   (String.prefix "/pc" pathname = true -> Middleware.userRole s = Some PC)).
Proof.
  pose proof (authenticated_has_role s) as Hrole.
  split.
  - intros target. unfold Middleware.middleware, Middleware.dashboardPath.
    destruct (Middleware.isAuthenticated s) eqn:A.
    + destruct (Hrole eq_refl) as [r Hr]. rewrite Hr.
      destruct (pathname =? "/");
        [ | destruct ((pathname =? "/login") || (pathname =? "/register"));
            [ | destruct (String.prefix "/pa" pathname);
                [ | destruct (String.prefix "/pc" pathname)]]];
        destruct r; simpl; intros H; try discriminate;
          injection H as <-; reflexivity.
    + destruct (pathname =? "/");
        [ | destruct ((pathname =? "/login") || (pathname =? "/register"));
            [ | destruct (String.prefix "/pa" pathname);
                [ | destruct (String.prefix "/pc" pathname)]]];
        simpl; intros H; try discriminate;
          injection H as <-; reflexivity.
  - intros Hnext. split; intros Hp;
      apply prefix_three in Hp as [rest ->];
      assert (Hrest : String.prefix "" rest = true) by (destruct rest; reflexivity);
      unfold Middleware.middleware in Hnext; simpl in Hnext;
      rewrite Hrest in Hnext;
      destruct (Middleware.isAuthenticated s) eqn:A; simpl in Hnext;
        try discriminate;
        destruct (Hrole eq_refl) as [r Hr]; rewrite Hr in *;
        destruct r; try discriminate; reflexivity.
Qed.

Lemma middleware_redirects_settle_witness :
  let s := Middleware.mkSession (Some "u1") false (fun _ => Some PC) in
  Middleware.middleware s "/pa/shifts" = Middleware.redirect "/pc" /\
  Middleware.middleware s "/pc" = Middleware.next.
Proof.
  intros s. split; [reflexivity | ].
  apply (proj1 (middleware_redirects_settle s "/pa/shifts") "/pc"). reflexivity.
Defined.

(** ** The email route *)

(** X20: the email route answers 200 exactly when the three required
    fields are present and non-empty, the API key is configured and the
    provider reports no error; it answers 400 exactly when the body was
    read and a required field is missing, whatever the configuration;
    every other case is a 500.  The client treats the answer as a
    delivered email exactly when the status is 200. *)
Theorem email_route_statuses (body : option SendEmail.Body)
        (key : option string) (send : SendEmail.SendAnswer) :
  let r := SendEmail.POST body key send in
  (SendEmail.status r = 200 <->
   exists b id,
     body = Some b /\ send = SendEmail.SendOk id /\
     JS.truthy_opt (SendEmail.paEmail b) = true /\
     JS.truthy_opt (SendEmail.paName b) = true /\
     JS.truthy_opt (SendEmail.date b) = true /\
     JS.truthy_opt key = true) /\
  (SendEmail.status r = 400 <->
   exists b,
     body = Some b /\
     JS.truthy_opt (SendEmail.paEmail b) && JS.truthy_opt (SendEmail.paName b)
     && JS.truthy_opt (SendEmail.date b) = false) /\
  (SendEmail.status r = 200 \/ SendEmail.status r = 400 \/ SendEmail.status r = 500) /\
  (SendEmail.asEmailOutcome r = EmailOk <-> SendEmail.status r = 200).
Proof.
  intros r. unfold r, SendEmail.POST.
  destruct body as [b | ];
    [destruct (JS.truthy_opt (SendEmail.paEmail b)) eqn:E1,
       (JS.truthy_opt (SendEmail.paName b)) eqn:E2,
       (JS.truthy_opt (SendEmail.date b)) eqn:E3,
       (JS.truthy_opt key) eqn:E4, send as [id | | ] | ];
    simpl;
    repeat match goal with
           | |- _ /\ _ => split
           | |- _ <-> _ => split; intros
           end;
    repeat match goal with
           | H : exists _, _ |- _ => destruct H
           | H : _ /\ _ |- _ => destruct H
           | H : Some _ = Some _ |- _ => injection H as H; subst
           end;
    try discriminate; try congruence; auto;
    try (match goal with
         | H : _ && _ && _ = false |- _ => rewrite E1, E2, E3 in H; discriminate H
         end);
    try (now exists b, id; repeat split);
    try (exists b; split; [reflexivity | rewrite E1, E2, E3; reflexivity]).
Qed.

Lemma email_route_statuses_witness :
  let b := SendEmail.mkBody (Some "pat@example.org") (Some "Pat")
                            (Some "2025-03-10") None None None in
  SendEmail.status (SendEmail.POST (Some b) None (SendEmail.SendOk None)) = 500 /\
  SendEmail.status (SendEmail.POST (Some b) (Some "re_key") (SendEmail.SendOk None))
  = 200.
Proof.
  intros b. split; [reflexivity | ].
  apply (proj1 (email_route_statuses (Some b) (Some "re_key") (SendEmail.SendOk None))).
  exists b, None. repeat split.
Defined.

Lemma roster_filters_witness :
  let pat := User.mk "p1" "pat@example.org" "Pat" PA None None None None None None in
  let day := DateInfo.mk "2025-03-10" "Mon 3/10" in
  let a := Availability.mk "a1" "p1" "2025-03-10" preferred None None None in
  In pat (AvailabilityGrid.filteredPAs [pat] [day] [a] false true) /\
  In pat (AvailabilityGrid.filteredPAs [pat] [day] [a] true false).
Proof.
  intros pat day a.
  assert (H : In pat (AvailabilityGrid.filteredPAs [pat] [day] [a] false true))
    by (now left).
  split; [exact H | ].
  destruct (roster_filters [pat] [day] [a]) as (_ & _ & Hsub & _).
  now apply Hsub.
Defined.

(** ** Plain text to HTML *)

Lemma append_nil_r (s : string) : (s ++ "")%string = s.
Proof.
  induction s as [ | c s IH]; simpl; [reflexivity | now rewrite IH].
Qed.

Lemma flatten_app (a b : list string) :
  EmailHtml.flatten (a ++ b)
  = (EmailHtml.flatten a ++ EmailHtml.flatten b)%string.
Proof.
  unfold EmailHtml.flatten.
  induction a as [ | x a IH]; simpl; [reflexivity | ].
  now rewrite IH, append_assoc.
Qed.

Lemma loop_as_pieces (lines : list string) (html : string) (inList : bool) :
  (if snd (fold_left EmailHtml.step lines (html, inList))
   then (fst (fold_left EmailHtml.step lines (html, inList)) ++ "</ul>")%string
   else fst (fold_left EmailHtml.step lines (html, inList)))
  = (html ++ EmailHtml.flatten
               (map EmailHtml.render (EmailHtml.pieces inList lines)))%string.
Proof.
  revert html inList.
  induction lines as [ | raw rest IH]; intros html inList.
  - destruct inList; simpl; [reflexivity | now rewrite append_nil_r].
  - cbn [fold_left EmailHtml.pieces]. unfold EmailHtml.step at 2 4 6.
    cbn [fst snd].
    destruct (String.prefix "- " (JS.trim raw));
      [ | destruct (JS.trim raw =? "")];
      rewrite IH; destruct inList;
      cbn [negb app map]; unfold EmailHtml.flatten; cbn [fold_right];
      unfold EmailHtml.render; rewrite !append_assoc; reflexivity.
Qed.

Lemma pieces_well_nested (lines : list string) (inList : bool) :
  EmailHtml.wellNested inList (EmailHtml.pieces inList lines) = true.
Proof.
  revert inList.
  induction lines as [ | raw rest IH]; intros inList.
  - now destruct inList.
  - cbn [EmailHtml.pieces].
    destruct (String.prefix "- " (JS.trim raw)).
    + destruct inList; simpl; now rewrite IH.
    + destruct (JS.trim raw =? ""); destruct inList; simpl; now rewrite IH.
Qed.

Lemma pieces_count (lines : list string) (inList : bool) :
  List.length (filter EmailHtml.isItem (EmailHtml.pieces inList lines))
  = List.length (filter EmailHtml.isListLine lines) /\
  List.length (filter EmailHtml.isBlock (EmailHtml.pieces inList lines))
  = List.length (filter (fun raw => negb (EmailHtml.isListLine raw)) lines).
Proof.
  revert inList.
  induction lines as [ | raw rest IH]; intros inList.
  - now destruct inList.
  - cbn [EmailHtml.pieces filter].
    change (String.prefix "- " (JS.trim raw)) with (EmailHtml.isListLine raw).
    destruct (EmailHtml.isListLine raw).
    + destruct (IH true) as [I1 I2].
      destruct inList; cbn [negb app filter EmailHtml.isItem EmailHtml.isBlock Datatypes.length];
        now rewrite I1, I2.
    + destruct (IH false) as [I1 I2].
      destruct (JS.trim raw =? ""); destruct inList;
        cbn [negb app filter EmailHtml.isItem EmailHtml.isBlock Datatypes.length];
        now rewrite I1, I2.
Qed.

(** X21: the HTML built from a text is the concatenation of a
    well-nested sequence of elements: every list is opened outside a
    list, starts with an item and is closed, also at the end of the
    text; items occur only inside a list and paragraphs and breaks only
    outside.  Each line of the text gives exactly one element: an item
    for a line that starts with "- " once trimmed, a paragraph or a
    break for any other line. *)
Theorem convertToHTML_is_well_nested (text : string) :
  let lines := JS.split EmailHtml.newline text in
  let ps := EmailHtml.pieces false lines in
  EmailHtml.convertToHTML text = EmailHtml.flatten (map EmailHtml.render ps) /\
  EmailHtml.wellNested false ps = true /\
  List.length (filter EmailHtml.isItem ps)
  = List.length (filter EmailHtml.isListLine lines) /\
  List.length (filter EmailHtml.isBlock ps)
  = List.length (filter (fun raw => negb (EmailHtml.isListLine raw)) lines).
Proof.
  intros lines ps. split; [ | split].
  - unfold EmailHtml.convertToHTML. cbv zeta. fold lines.
    exact (loop_as_pieces lines EmptyString false).
  - apply pieces_well_nested.
  - apply pieces_count.
Qed.

(** ** Notes on a day of the PA calendar *)

(** X22: saving the note dialog for a day that has a record stores the
    typed text on that record (an empty text as null), leaves its
    status, date and owner alone and closes the dialog.  In particular,
    opening the dialog and saving it untouched keeps the note, except
    that an empty stored note becomes null. *)
Theorem saved_note_reads_back
        (w : CalendarClick.ClickWorld) (userId day : string)
        (st : CalendarClick.NoteState) (cur data : Availability.t) :
  CalendarClick.write w = CalendarClick.WriteOk data ->
  JS.truthy day = true ->
  PACalendar.getAvailabilityForDate day (CalendarClick.rows st) = Some cur ->
  let withNote := fun (c : Availability.t) (note : option string) =>
    Availability.mk (Availability.id c) (Availability.user_id c)
                    (Availability.date c) (Availability.status c) note
                    (Availability.created_at c) (Some (CalendarClick.clickISO w)) in
  (forall text,
      let typed :=
        CalendarClick.mkNoteState (CalendarClick.rows st) (Some day) true text
                                  (CalendarClick.noteLoading st) in
      let r := CalendarClick.saveNote w userId typed in
      PACalendar.getAvailabilityForDate day
        (CalendarClick.rows (CalendarClick.noteState r))
      = Some (withNote cur (CalendarClick.noteOrNull text)) /\
      CalendarClick.noteDialogOpen (CalendarClick.noteState r) = false /\
      CalendarClick.noteToasts r = [toast_success "Note saved successfully!"]) /\
  PACalendar.getAvailabilityForDate day
    (CalendarClick.rows
       (CalendarClick.noteState
          (CalendarClick.saveNote w userId (CalendarClick.handleNoteClick day st))))
  = Some (withNote cur (if JS.truthy_opt (Availability.pa_note cur)
                        then Availability.pa_note cur else None)).
Proof.
  intros Hw Hday Hcur withNote.
  assert (Hgen : forall text,
             PACalendar.getAvailabilityForDate day
               (CalendarClick.rows
                  (CalendarClick.noteState
                     (CalendarClick.saveNote w userId
                        (CalendarClick.mkNoteState (CalendarClick.rows st) (Some day)
                           true text (CalendarClick.noteLoading st)))))
             = Some (withNote cur (CalendarClick.noteOrNull text))).
  { intros text. unfold CalendarClick.saveNote.
    cbn [CalendarClick.selectedDate CalendarClick.rows CalendarClick.currentNote].
    rewrite Hday, Hcur, Hw.
    cbn [negb CalendarClick.noteState CalendarClick.rows].
    unfold PACalendar.getAvailabilityForDate in *.
    rewrite find_map_same_test.
    - rewrite Hcur. cbn [option_map]. now rewrite String.eqb_refl.
    - intros x. now destruct (Availability.id x =? Availability.id cur). }
  split.
  - intros text typed r. split; [apply Hgen | ].
    unfold r, typed, CalendarClick.saveNote.
    cbn [CalendarClick.selectedDate CalendarClick.rows].
    rewrite Hday, Hcur, Hw. split; reflexivity.
  - unfold CalendarClick.handleNoteClick. rewrite Hgen, Hcur.
    unfold CalendarClick.noteText, CalendarClick.noteOrNull, JS.truthy_opt.
    destruct (Availability.pa_note cur) as [n | ]; [ | reflexivity].
    destruct (JS.truthy n) eqn:T; [now rewrite T | reflexivity].
Qed.

Lemma saved_note_reads_back_witness :
  let a := Availability.mk "a1" "u1" "2025-03-10" preferred (Some "Can work late")
                           None None in
  let w := CalendarClick.mkClickWorld (CalendarClick.WriteOk a)
             CalendarClick.RefetchNothing 1741600000000%N "0.25"
             "2025-03-10T09:46:40.000Z" in
  let st := CalendarClick.mkNoteState [a] None false "" false in
  JS.truthy "2025-03-10" = true /\
  PACalendar.getAvailabilityForDate "2025-03-10"
    (CalendarClick.rows
       (CalendarClick.noteState
          (CalendarClick.saveNote w "u1" (CalendarClick.handleNoteClick "2025-03-10" st))))
  = Some (Availability.mk "a1" "u1" "2025-03-10" preferred (Some "Can work late")
                          None (Some "2025-03-10T09:46:40.000Z")).
Proof.
  intros a w st. split; [reflexivity | ].
  apply (proj2 (saved_note_reads_back w "u1" "2025-03-10" st a a
                  eq_refl eq_refl eq_refl)).
Defined.

(** ** Answering a pending shift *)

Lemma map_other_ids (i : string) (g : Shift.t -> Shift.t) (l : list Shift.t) :
  ~ In i (map Shift.id l) ->
  map (fun x => if Shift.id x =? i then g x else x) l = l.
Proof.
  induction l as [ | x l IH]; simpl; intros H.
  - reflexivity.
  - destruct (Shift.id x =? i) eqn:E.
    + apply String.eqb_eq in E. exfalso. apply H. now left.
    + f_equal. apply IH. intros Hin. apply H. now right.
Qed.

Lemma answered_shift (s : Shift.t) (l : list Shift.t) :
  NoDup (map Shift.id l) -> In s l -> PAShifts.isPending s = true ->
  exists l1 l2,
    l = l1 ++ s :: l2 /\
    forall target, target <> pending ->
      map (fun x => if Shift.id x =? Shift.id s
                    then Shift.with_confirmation_status x target else x) l
      = l1 ++ Shift.with_confirmation_status s target :: l2 /\
      PAShifts.pendingCount
        (l1 ++ Shift.with_confirmation_status s target :: l2) + 1
      = PAShifts.pendingCount l.
Proof.
  intros Hnd Hin Hpending.
  apply in_split in Hin as (l1 & l2 & ->).
  exists l1, l2. split; [reflexivity | ].
  intros target Htarget.
  rewrite map_app in Hnd. simpl in Hnd.
  pose proof (NoDup_remove_2 _ _ _ Hnd) as Hnotin.
  split.
  - rewrite map_app. simpl. rewrite String.eqb_refl.
    rewrite !map_other_ids; [reflexivity | | ];
      intros H; apply Hnotin; apply in_or_app; [now right | now left].
  - unfold PAShifts.pendingCount.
    rewrite !filter_app, !length_app. simpl. rewrite Hpending.
    unfold PAShifts.isPending at 2. simpl.
    destruct target; [contradiction | | ]; simpl; lia.
Qed.

(** X23: answering a pending shift of the list, with identifiers
    unique and the write accepted, changes that one record only: it
    becomes confirmed (or declined, once the prompt is accepted), every
    other record stays where it was, and the pending badge goes down by
    exactly one. *)
Theorem answering_takes_one_off_the_badge
        (data : Shift.t) (users : string -> option UserDetails)
        (e : EmailOutcome) (now : N) (iso : string)
        (userId : string) (s : Shift.t) (st : PAShifts.State) :
  NoDup (map Shift.id (PAShifts.shifts st)) ->
  In s (PAShifts.shifts st) ->
  PAShifts.isPending s = true ->
  let w := mkWorld (DbRow data) users e true now iso in
  let afterConfirm :=
    PAShifts.shifts (PAShifts.state (PAShifts.confirmShift w userId (Shift.id s) st)) in
  let afterDecline :=
    PAShifts.shifts (PAShifts.state (PAShifts.declineShift w userId (Shift.id s) st)) in
  exists l1 l2,
    PAShifts.shifts st = l1 ++ s :: l2 /\
    afterConfirm = l1 ++ Shift.with_confirmation_status s confirmed :: l2 /\
    afterDecline = l1 ++ Shift.with_confirmation_status s declined :: l2 /\
    PAShifts.pendingCount afterConfirm + 1 = PAShifts.pendingCount (PAShifts.shifts st) /\
    PAShifts.pendingCount afterDecline + 1 = PAShifts.pendingCount (PAShifts.shifts st).
Proof.
  intros Hnd Hin Hpending w afterConfirm afterDecline.
  destruct (answered_shift s _ Hnd Hin Hpending) as (l1 & l2 & Hsplit & Hall).
  destruct (Hall confirmed ltac:(discriminate)) as [Hc Hcount].
  destruct (Hall declined ltac:(discriminate)) as [Hd Hcount'].
  exists l1, l2.
  assert (Ec : afterConfirm = l1 ++ Shift.with_confirmation_status s confirmed :: l2).
  { unfold afterConfirm, PAShifts.confirmShift, PAShifts.transition, w. simpl.
    exact Hc. }
  assert (Ed : afterDecline = l1 ++ Shift.with_confirmation_status s declined :: l2).
  { unfold afterDecline, PAShifts.declineShift, PAShifts.transition, w. simpl.
    exact Hd. }
  rewrite Ec, Ed. repeat split; assumption.
Qed.

Lemma answering_takes_one_off_the_badge_witness :
  let s1 := Shift.mk "s1" "2025-03-10" "p1" "c1" None None pending None None in
  let s2 := Shift.mk "s2" "2025-03-11" "p1" "c1" None None pending None None in
  let w := mkWorld (DbRow s1) (fun _ => None) EmailOk true 1741600000000%N
                   "2025-03-10T09:46:40.000Z" in
  let st := PAShifts.mkState [s1; s2] None in
  NoDup (map Shift.id [s1; s2]) /\
  PAShifts.pendingCount
    (PAShifts.shifts (PAShifts.state (PAShifts.confirmShift w "p1" "s1" st))) + 1
  = PAShifts.pendingCount [s1; s2].
Proof.
  intros s1 s2 w st.
  assert (Hnd : NoDup (map Shift.id [s1; s2])).
  { simpl. repeat constructor; simpl; intuition discriminate. }
  split; [exact Hnd | ].
  destruct (answering_takes_one_off_the_badge s1 (fun _ => None) EmailOk
              1741600000000%N "2025-03-10T09:46:40.000Z" "p1" s1 st Hnd
              (or_introl eq_refl) eq_refl)
    as (l1 & l2 & _ & _ & _ & Hcount & _).
  exact Hcount.
Defined.
